(** * SupplyChainLens backend: authentication middleware and tenant scoping

    A shallow embedding of the request-scoped authorization layer of the
    backend (middleware/auth.ts, routes/auth.ts, routes/organizations.ts,
    routes/suppliers.ts, routes/users.ts, routes/monitoring.ts,
    routes/alerts.ts) together with the statements the design document makes
    about it and further properties read off the handlers.

    Conventions.
    - The relational store behind Prisma is a record of tables; a table is a
      list of rows in retrieval order ([findFirst] returns the first row
      that matches).
    - An [async] handler is a computation in the monad [M]: it reads and
      writes the store, may throw, and logs every Prisma call it awaits.
      Writes made before a throw persist (the handlers open no transaction).
    - [new Date()] is the argument [now], in milliseconds since the epoch.
    - Strings are byte strings; [String.length] agrees with the JavaScript
      [length] on ASCII text. *)

From Stdlib Require Import String Ascii List Bool Arith ZArith Lia.
From Stdlib Require Import Sorted.
Import ListNotations.
Local Open Scope string_scope.

(** ** JavaScript string helpers *)

Module Js.

(** [s.split(sep)] for a one-character separator. *)
Fixpoint split (sep : ascii) (s : string) : list string :=
  match s with
  | EmptyString => [EmptyString]
  | String c rest =>
      if Ascii.eqb c sep then EmptyString :: split sep rest
      else match split sep rest with
           | [] => [String c EmptyString]
           | w :: ws => String c w :: ws
           end
  end.

(** Truthiness of a possibly undefined string: [undefined] and the empty
    string are falsy. *)
Definition truthy (v : option string) : bool :=
  match v with
  | None => false
  | Some s => negb (String.eqb s EmptyString)
  end.

(** [a || b] on possibly undefined strings. *)
Definition or_else (a b : option string) : option string :=
  if truthy a then a else b.

(** The whitespace class [\s], restricted to ASCII. *)
Definition is_space (c : ascii) : bool :=
  let n := nat_of_ascii c in
  Nat.eqb n 32 || (Nat.leb 9 n && Nat.leb n 13).

Fixpoint ltrim (s : string) : string :=
  match s with
  | EmptyString => EmptyString
  | String c rest => if is_space c then ltrim rest else s
  end.

Fixpoint rtrim (s : string) : string :=
  match s with
  | EmptyString => EmptyString
  | String c rest =>
      match rtrim rest with
      | EmptyString => if is_space c then EmptyString else String c EmptyString
      | r => String c r
      end
  end.

(** validator.js [trim]: [rtrim (ltrim s)]. *)
Definition trim (s : string) : string := rtrim (ltrim s).

(** [list.includes(x)] on strings. *)
Definition includes (l : list string) (x : string) : bool :=
  existsb (String.eqb x) l.

End Js.

(** ** Data model (rows of the Prisma models the handlers touch) *)

Definition Id := string.
Definition Date := Z.

Inductive UserRole := USER | ADMIN.

Inductive OrgRole := OWNER | ORG_ADMIN | MEMBER | VIEWER.

Definition UserRole_eqb (a b : UserRole) : bool :=
  match a, b with
  | USER, USER | ADMIN, ADMIN => true
  | _, _ => false
  end.

Definition OrgRole_eqb (a b : OrgRole) : bool :=
  match a, b with
  | OWNER, OWNER | ORG_ADMIN, ORG_ADMIN | MEMBER, MEMBER | VIEWER, VIEWER => true
  | _, _ => false
  end.

Record User := mkUser {
  user_id : Id;
  user_email : string;
  user_password : string;
  user_firstName : string;
  user_lastName : string;
  user_company : option string;
  user_role : UserRole;
  user_isActive : bool;
  user_createdAt : Date
}.

Record UserSession := mkUserSession {
  session_id : Id;
  session_userId : Id;
  session_token : string;
  session_expiresAt : Date
}.

Record Organization := mkOrganization {
  org_id : Id;
  org_name : string;
  org_description : option string;
  org_industry : option string
}.

Record OrganizationUser := mkOrganizationUser {
  ou_userId : Id;
  ou_organizationId : Id;
  ou_role : OrgRole
}.

Record Supplier := mkSupplier {
  supplier_id : Id;
  supplier_name : string;
  supplier_country : string;
  supplier_industry : option string;
  supplier_coordinates : option string;
  supplier_organizationId : Id;
  supplier_createdAt : Date
}.

Record MonitoringZone := mkMonitoringZone {
  zone_id : Id;
  zone_name : string;
  zone_organizationId : Id;
  zone_createdAt : Date
}.

Record Alert := mkAlert {
  alert_id : Id;
  alert_userId : Id;
  alert_organizationId : Id;
  alert_title : string;
  alert_isRead : bool
}.

(** The store.  [nextId] counts the rows created so far; it feeds the id
    generator of the platform. *)
Record DB := mkDB {
  users : list User;
  userSessions : list UserSession;
  organizations : list Organization;
  organizationUsers : list OrganizationUser;
  suppliers : list Supplier;
  monitoringZones : list MonitoringZone;
  alerts : list Alert;
  nextId : nat
}.

Definition emptyDB : DB := mkDB [] [] [] [] [] [] [] 0.

(** Table updates. *)
Definition set_users (db : DB) (l : list User) : DB :=
  mkDB l (userSessions db) (organizations db) (organizationUsers db)
       (suppliers db) (monitoringZones db) (alerts db) (nextId db).

Definition set_userSessions (db : DB) (l : list UserSession) : DB :=
  mkDB (users db) l (organizations db) (organizationUsers db)
       (suppliers db) (monitoringZones db) (alerts db) (nextId db).

Definition set_organizations (db : DB) (l : list Organization) : DB :=
  mkDB (users db) (userSessions db) l (organizationUsers db)
       (suppliers db) (monitoringZones db) (alerts db) (nextId db).

Definition set_organizationUsers (db : DB) (l : list OrganizationUser) : DB :=
  mkDB (users db) (userSessions db) (organizations db) l
       (suppliers db) (monitoringZones db) (alerts db) (nextId db).

Definition set_suppliers (db : DB) (l : list Supplier) : DB :=
  mkDB (users db) (userSessions db) (organizations db) (organizationUsers db)
       l (monitoringZones db) (alerts db) (nextId db).

Definition set_alerts (db : DB) (l : list Alert) : DB :=
  mkDB (users db) (userSessions db) (organizations db) (organizationUsers db)
       (suppliers db) (monitoringZones db) l (nextId db).

(** The store after one more row has been given an id. *)
Definition bump (db : DB) : DB :=
  mkDB (users db) (userSessions db) (organizations db) (organizationUsers db)
       (suppliers db) (monitoringZones db) (alerts db) (S (nextId db)).

(** ** Errors and the handler monad *)

(** What a handler or middleware throws.  [CustomError] is the class of
    middleware/errorHandler; [JsError] is a plain [new Error(..)];
    [JsonWebTokenError] is what [jwt.verify] throws; [PrismaError] is a
    rejected Prisma call, with its error code. *)
Inductive Thrown :=
| CustomError (message : string) (statusCode : nat)
| JsError (message : string)
| JsonWebTokenError
| PrismaError (code : string).

Inductive Table :=
| TUser | TUserSession | TOrganization | TOrganizationUser | TSupplier
| TMonitoringZone | TAlert.

Inductive Op :=
| FindUnique | FindFirst | FindMany | Count
| Create | Update | UpdateMany | DeleteMany.

(** One awaited Prisma call. *)
Definition Query : Type := Table * Op.

Record Out (A : Type) := mkOut {
  result : Thrown + A;
  db_after : DB;
  queries : list Query
}.
Arguments mkOut {A}.
Arguments result {A}.
Arguments db_after {A}.
Arguments queries {A}.

Definition M (A : Type) : Type := DB -> Out A.

Definition ret {A} (a : A) : M A :=
  fun db => mkOut (inr a) db [].

Definition throw {A} (e : Thrown) : M A :=
  fun db => mkOut (inl e) db [].

Definition bind {A B} (m : M A) (k : A -> M B) : M B :=
  fun db =>
    let o := m db in
    match result o with
    | inl e => mkOut (inl e) (db_after o) (queries o)
    | inr a =>
        let o' := k a (db_after o) in
        mkOut (result o') (db_after o') (queries o ++ queries o')
    end.

(** A read-only Prisma call. *)
Definition query {A} (t : Table) (op : Op) (f : DB -> A) : M A :=
  fun db => mkOut (inr (f db)) db [(t, op)].

(** A Prisma call that writes, or rejects and leaves the store as it was. *)
Definition command {A} (t : Table) (op : Op) (f : DB -> Thrown + (A * DB)) : M A :=
  fun db =>
    match f db with
    | inl e => mkOut (inl e) db [(t, op)]
    | inr (a, db') => mkOut (inr a) db' [(t, op)]
    end.

Declare Scope handler_scope.
Delimit Scope handler_scope with handler.
Notation "x <- m ;; k" := (bind m (fun x => k))
  (at level 61, m at next level, right associativity) : handler_scope.
Notation "m ;;; k" := (bind m (fun _ => k))
  (at level 61, right associativity) : handler_scope.
Local Open Scope handler_scope.

(** [try { m } catch (error) { h error }]. *)
Definition try_catch {A} (m : M A) (h : Thrown -> M A) : M A :=
  fun db =>
    let o := m db in
    match result o with
    | inl e =>
        let o' := h e (db_after o) in
        mkOut (result o') (db_after o') (queries o ++ queries o')
    | inr a => o
    end.

(** ** Libraries the handlers call

    jsonwebtoken, bcryptjs, express-validator and the id generator of the
    store are not part of the repository; the handlers are parametric in
    them.  The signing key and the token lifetime of [process.env] are part
    of [jwt_sign] and [jwt_verify].  Only the handlers below sign tokens, all
    with the payload [{userId, email}], so a token that verifies decodes to
    such a payload. *)

Record JwtPayload := mkJwtPayload {
  jwt_userId : Id;
  jwt_email : string
}.

Class Platform := {
  (** [jwt.sign(payload, secret, {expiresIn})] at a given time. *)
  jwt_sign : JwtPayload -> Date -> string;
  (** [jwt.verify(token, secret)] at a given time; [None] when it throws a
      [JsonWebTokenError] (bad signature, malformed or expired token). *)
  jwt_verify : string -> Date -> option JwtPayload;
  (** [bcrypt.hash(password, saltRounds)]. *)
  bcrypt_hash : string -> nat -> string;
  (** [bcrypt.compare(password, hash)]. *)
  bcrypt_compare : string -> string -> bool;
  isEmail : string -> bool;
  normalizeEmail : string -> string;
  isUUID : string -> bool;
  (** [Number(s)] when that is a natural number; [None] otherwise, and the
      Prisma call that receives it is taken to reject. *)
  toNumber : string -> option nat;
  (** The id the store gives to its n-th created row. *)
  uuid : nat -> Id
}.

(** ** Requests *)

(** A JavaScript object with string values: [req.params], [req.query],
    [req.body]. *)
Definition Obj := list (string * string).

Fixpoint get (o : Obj) (k : string) : option string :=
  match o with
  | [] => None
  | (k', v) :: rest => if String.eqb k' k then Some v else get rest k
  end.

Fixpoint set (o : Obj) (k v : string) : Obj :=
  match o with
  | [] => [(k, v)]
  | (k', v') :: rest =>
      if String.eqb k' k then (k, v) :: rest else (k', v') :: set rest k v
  end.

(** [AuthRequest.user]. *)
Record AuthUser := mkAuthUser {
  au_id : Id;
  au_email : string;
  au_role : UserRole;
  au_organizationId : option Id
}.

Record Request := mkRequest {
  authorization : option string;
  params : Obj;
  req_query : Obj;
  body : Obj;
  user : option AuthUser
}.

Definition with_user (req : Request) (u : AuthUser) : Request :=
  mkRequest (authorization req) (params req) (req_query req) (body req) (Some u).

Definition with_body (req : Request) (b : Obj) : Request :=
  mkRequest (authorization req) (params req) (req_query req) b (user req).

(** [res.status(s).json({success, message, data})]. *)
Record Response (A : Type) := mkResponse {
  status : nat;
  res_message : option string;
  data : A
}.
Arguments mkResponse {A}.
Arguments status {A}.
Arguments res_message {A}.
Arguments data {A}.

(** ** The Prisma calls of the handlers *)

Module Prisma.

Definition id_is (id : Id) (u : User) : bool := String.eqb (user_id u) id.
Definition email_is (e : string) (u : User) : bool := String.eqb (user_email u) e.

Definition member_of (userId : Id) (m : OrganizationUser) : bool :=
  String.eqb (ou_userId m) userId.

Definition membership_is (userId organizationId : Id) (m : OrganizationUser) : bool :=
  String.eqb (ou_userId m) userId && String.eqb (ou_organizationId m) organizationId.

(** [user.findUnique({where: {id}})]. *)
Definition user_findUnique_id (id : Id) : M (option User) :=
  query TUser FindUnique (fun db => find (id_is id) (users db)).

(** [user.findUnique({where: {id}, select: {.., organizations: {..}}})]:
    the user with its membership rows. *)
Definition user_findUnique_id_with_organizations (id : Id)
  : M (option (User * list OrganizationUser)) :=
  query TUser FindUnique (fun db =>
    match find (id_is id) (users db) with
    | Some u => Some (u, filter (member_of id) (organizationUsers db))
    | None => None
    end).

(** [user.findUnique({where: {email}})]; [email] is a unique column. *)
Definition user_findUnique_email (e : string) : M (option User) :=
  query TUser FindUnique (fun db => find (email_is e) (users db)).

Definition user_findUnique_email_with_organizations (e : string)
  : M (option (User * list OrganizationUser)) :=
  query TUser FindUnique (fun db =>
    match find (email_is e) (users db) with
    | Some u => Some (u, filter (member_of (user_id u)) (organizationUsers db))
    | None => None
    end).

(** Modelled from the spec: the Prisma schema is not among the sources; a
    user is active from registration until it is deactivated, so the column
    default of [isActive] is [true]. *)
Definition default_isActive : bool := true.

(** [user.create({data})]: rejects with P2002 on a duplicate email; the row
    gets a fresh id, [isActive] at its default and [createdAt] at [now]. *)
Definition user_create {P : Platform} (now : Date)
    (email password firstName lastName : string) (company : option string)
    (role : UserRole) : M User :=
  command TUser Create (fun db =>
    if existsb (email_is email) (users db) then inl (PrismaError "P2002")
    else
      let u := mkUser (uuid (nextId db)) email password firstName lastName
                      company role default_isActive now in
      inr (u, bump (set_users db (users db ++ [u])))).

(** [userSession.create({data: {userId, token, expiresAt}})]. *)
Definition userSession_create {P : Platform} (userId : Id) (token : string)
    (expiresAt : Date) : M UserSession :=
  command TUserSession Create (fun db =>
    let s := mkUserSession (uuid (nextId db)) userId token expiresAt in
    inr (s, bump (set_userSessions db (userSessions db ++ [s])))).

Definition session_live (userId : Id) (token : string) (now : Date)
    (s : UserSession) : bool :=
  String.eqb (session_userId s) userId
  && String.eqb (session_token s) token
  && Z.ltb now (session_expiresAt s).

(** [userSession.findFirst({where: {userId, token, expiresAt: {gt: now}}})]. *)
Definition userSession_findFirst (userId : Id) (token : string) (now : Date)
  : M (option UserSession) :=
  query TUserSession FindFirst (fun db =>
    find (session_live userId token now) (userSessions db)).

(** [userSession.deleteMany({where: {token}})]. *)
Definition userSession_deleteMany (token : string) : M nat :=
  command TUserSession DeleteMany (fun db =>
    let keep := filter (fun s => negb (String.eqb (session_token s) token))
                       (userSessions db) in
    inr (length (userSessions db) - length keep, set_userSessions db keep)).

(** [organizationUser.findUnique({where: {userId_organizationId}})]. *)
Definition organizationUser_findUnique (userId organizationId : Id)
  : M (option OrganizationUser) :=
  query TOrganizationUser FindUnique (fun db =>
    find (membership_is userId organizationId) (organizationUsers db)).

(** [organizationUser.findFirst({where: {userId}})]. *)
Definition organizationUser_findFirst (userId : Id) : M (option OrganizationUser) :=
  query TOrganizationUser FindFirst (fun db =>
    find (member_of userId) (organizationUsers db)).

(** [organizationUser.findMany({where: {organizationId}})]. *)
Definition organizationUser_findMany_org (organizationId : Id)
  : M (list OrganizationUser) :=
  query TOrganizationUser FindMany (fun db =>
    filter (fun m => String.eqb (ou_organizationId m) organizationId)
           (organizationUsers db)).

(** [organizationUser.create({data})]: the pair (userId, organizationId) is
    a unique key. *)
Definition organizationUser_create (userId organizationId : Id) (role : OrgRole)
  : M OrganizationUser :=
  command TOrganizationUser Create (fun db =>
    if existsb (membership_is userId organizationId) (organizationUsers db)
    then inl (PrismaError "P2002")
    else
      let m := mkOrganizationUser userId organizationId role in
      inr (m, set_organizationUsers db (organizationUsers db ++ [m]))).


(** [organization.create({data})]. *)
Definition organization_create {P : Platform} (name : string)
    (description industry : option string) : M Organization :=
  command TOrganization Create (fun db =>
    let o := mkOrganization (uuid (nextId db)) name description industry in
    inr (o, bump (set_organizations db (organizations db ++ [o])))).

(** The optional fields of an [organization.update]: a key that is absent
    from [data] leaves the column as it is. *)
Definition patch_organization (name description industry : option string)
    (o : Organization) : Organization :=
  mkOrganization (org_id o)
    (match name with Some n => n | None => org_name o end)
    (match description with Some d => Some d | None => org_description o end)
    (match industry with Some i => Some i | None => org_industry o end).

(** [organization.update({where: {id}, data})]: rejects with P2025 when no
    row has that id. *)
Definition organization_update (id : Id) (name description industry : option string)
  : M Organization :=
  command TOrganization Update (fun db =>
    match find (fun o => String.eqb (org_id o) id) (organizations db) with
    | None => inl (PrismaError "P2025")
    | Some o =>
        let o' := patch_organization name description industry o in
        inr (o', set_organizations db
                   (map (fun x => if String.eqb (org_id x) id then o' else x)
                        (organizations db)))
    end).

(** The [include: {organization: {include: {_count}}}] of a membership row:
    the organization it points to, with the number of its members, suppliers
    and monitoring zones.  Under referential integrity the organization is
    always there. *)
Record OrganizationWithCount := mkOrganizationWithCount {
  owc_organization : option Organization;
  owc_users : nat;
  owc_suppliers : nat;
  owc_monitoringZones : nat
}.

Definition include_organization (db : DB) (organizationId : Id)
  : OrganizationWithCount :=
  mkOrganizationWithCount
    (find (fun o => String.eqb (org_id o) organizationId) (organizations db))
    (length (filter (fun m => String.eqb (ou_organizationId m) organizationId)
                    (organizationUsers db)))
    (length (filter (fun s => String.eqb (supplier_organizationId s) organizationId)
                    (suppliers db)))
    (length (filter (fun z => String.eqb (zone_organizationId z) organizationId)
                    (monitoringZones db))).

(** [organizationUser.findUnique({where, include: {organization: ..}})]. *)
Definition organizationUser_findUnique_with_organization (userId organizationId : Id)
  : M (option (OrganizationUser * OrganizationWithCount)) :=
  query TOrganizationUser FindUnique (fun db =>
    match find (membership_is userId organizationId) (organizationUsers db) with
    | Some m => Some (m, include_organization db (ou_organizationId m))
    | None => None
    end).

(** [supplier.create({data})]. *)
Definition supplier_create {P : Platform} (now : Date) (name country : string)
    (industry coordinates : option string) (organizationId : Id) : M Supplier :=
  command TSupplier Create (fun db =>
    let s := mkSupplier (uuid (nextId db)) name country industry coordinates
                        organizationId now in
    inr (s, bump (set_suppliers db (suppliers db ++ [s])))).

Definition in_organization (organizationId : Id) (s : Supplier) : bool :=
  String.eqb (supplier_organizationId s) organizationId.

(** Insertion in a list ordered by a date column, latest first. *)
Fixpoint insert_desc {A} (key : A -> Date) (s : A) (l : list A) : list A :=
  match l with
  | [] => [s]
  | x :: rest =>
      if Z.ltb (key x) (key s) then s :: l else x :: insert_desc key s rest
  end.

(** [orderBy: {createdAt: 'desc'}]. *)
Definition order_by_desc {A} (key : A -> Date) (l : list A) : list A :=
  fold_right (insert_desc key) [] l.

(** [supplier.findMany({where: {organizationId}, skip, take, orderBy})]. *)
Definition supplier_findMany (organizationId : Id) (skip take : nat)
  : M (list Supplier) :=
  query TSupplier FindMany (fun db =>
    firstn take (skipn skip
      (order_by_desc supplier_createdAt
         (filter (in_organization organizationId) (suppliers db))))).

(** [supplier.count({where: {organizationId}})]. *)
Definition supplier_count (organizationId : Id) : M nat :=
  query TSupplier Count (fun db =>
    length (filter (in_organization organizationId) (suppliers db))).

(** [monitoringZone.findMany({where: {organizationId}, orderBy})]. *)
Definition monitoringZone_findMany (organizationId : Id) : M (list MonitoringZone) :=
  query TMonitoringZone FindMany (fun db =>
    order_by_desc zone_createdAt
      (filter (fun z => String.eqb (zone_organizationId z) organizationId)
              (monitoringZones db))).

Definition alert_is (alertId userId : Id) (a : Alert) : bool :=
  String.eqb (alert_id a) alertId && String.eqb (alert_userId a) userId.

Definition mark_read (a : Alert) : Alert :=
  mkAlert (alert_id a) (alert_userId a) (alert_organizationId a)
          (alert_title a) true.

(** [alert.updateMany({where: {id, userId}, data: {isRead: true}})]: every
    row the filter matches is written, and [count] is their number. *)
Definition alert_updateMany_read (alertId userId : Id) : M nat :=
  command TAlert UpdateMany (fun db =>
    inr (length (filter (alert_is alertId userId) (alerts db)),
         set_alerts db
           (map (fun a => if alert_is alertId userId a then mark_read a else a)
                (alerts db)))).

(** The [include: {organization: ..}] of a membership row. *)
Definition with_organization (db : DB) (m : OrganizationUser)
  : OrganizationUser * option Organization :=
  (m, find (fun o => String.eqb (org_id o) (ou_organizationId m)) (organizations db)).

(** [user.findUnique({where: {id}, select: {.., organizations: {select:
    {organizationId, role, organization}}}})]. *)
Definition user_findUnique_id_with_organization_details (id : Id)
  : M (option (User * list (OrganizationUser * option Organization))) :=
  query TUser FindUnique (fun db =>
    match find (id_is id) (users db) with
    | Some u =>
        Some (u, map (with_organization db)
                     (filter (member_of id) (organizationUsers db)))
    | None => None
    end).

(** [organizationUser.findMany({where: {userId}, include: {organization:
    true}})]. *)
Definition organizationUser_findMany_user (userId : Id)
  : M (list (OrganizationUser * option Organization)) :=
  query TOrganizationUser FindMany (fun db =>
    map (with_organization db) (filter (member_of userId) (organizationUsers db))).

(** The [data: {firstName, lastName, company}] of a profile update: a key
    that is undefined leaves the column as it is. *)
Definition patch_profile (firstName lastName company : option string) (u : User)
  : User :=
  mkUser (user_id u) (user_email u) (user_password u)
    (match firstName with Some f => f | None => user_firstName u end)
    (match lastName with Some l => l | None => user_lastName u end)
    (match company with Some c => Some c | None => user_company u end)
    (user_role u) (user_isActive u) (user_createdAt u).

(** [user.update({where: {id}, data: {firstName, lastName, company}})]:
    rejects with P2025 when no row has that id. *)
Definition user_update_profile (id : Id) (firstName lastName company : option string)
  : M User :=
  command TUser Update (fun db =>
    match find (id_is id) (users db) with
    | None => inl (PrismaError "P2025")
    | Some u =>
        inr (patch_profile firstName lastName company u,
             set_users db
               (map (fun x => if id_is id x
                              then patch_profile firstName lastName company x
                              else x)
                    (users db)))
    end).

Definition carries (token : string) (s : UserSession) : bool :=
  String.eqb (session_token s) token.

(** [userSession.updateMany({where: {token}, data: {token: newToken,
    expiresAt}})]. *)
Definition userSession_updateMany_token (token newToken : string) (expiresAt : Date)
  : M nat :=
  command TUserSession UpdateMany (fun db =>
    inr (length (filter (carries token) (userSessions db)),
         set_userSessions db
           (map (fun s => if carries token s
                          then mkUserSession (session_id s) (session_userId s)
                                             newToken expiresAt
                          else s)
                (userSessions db)))).

End Prisma.

(** ** middleware/auth.ts *)

Module Auth.
Section Middleware.
Context {P : Platform}.

(** [authHeader && authHeader.split(' ')[1]]. *)
Definition bearer (req : Request) : option string :=
  match authorization req with
  | None => None
  | Some authHeader =>
      if Js.truthy (Some authHeader)
      then nth_error (Js.split " " authHeader) 1
      else Some authHeader
  end.

(** [jwt.verify(token, process.env.JWT_SECRET!)]. *)
Definition verify (token : string) (now : Date) : M JwtPayload :=
  match jwt_verify token now with
  | Some decoded => ret decoded
  | None => throw JsonWebTokenError
  end.

(** The [catch] block of [authenticateToken]. *)
Definition authenticate_catch {A} (error : Thrown) : M A :=
  match error with
  | JsonWebTokenError => throw (CustomError "Invalid token" 401)
  | _ => throw error
  end.

(** [authenticateToken]: the request handed to [next()], or the error handed
    to [next(error)]. *)
Definition authenticateToken (req : Request) (now : Date) : M Request :=
  try_catch
    (match bearer req with
     | None => throw (CustomError "Access token required" 401)
     | Some token =>
         if negb (Js.truthy (Some token))
         then throw (CustomError "Access token required" 401)
         else
           decoded <- verify token now ;;
           found <- Prisma.user_findUnique_id_with_organizations (jwt_userId decoded) ;;
           match found with
           | None => throw (CustomError "User not found or inactive" 401)
           | Some (user, organizations) =>
               if negb (user_isActive user)
               then throw (CustomError "User not found or inactive" 401)
               else
                 session <- Prisma.userSession_findFirst (user_id user) token now ;;
                 match session with
                 | None => throw (CustomError "Session expired" 401)
                 | Some _ =>
                     ret (with_user req
                            (mkAuthUser (user_id user) (user_email user)
                               (user_role user)
                               (option_map ou_organizationId (hd_error organizations))))
                 end
           end
     end)
    authenticate_catch.

(** [requireRole(roles)]. *)
Definition requireRole (roles : list UserRole) (req : Request) : M Request :=
  match user req with
  | None => throw (CustomError "Authentication required" 401)
  | Some u =>
      if negb (existsb (UserRole_eqb (au_role u)) roles)
      then throw (CustomError "Insufficient permissions" 403)
      else ret req
  end.

(** [requireOrganizationAccess]. *)
Definition requireOrganizationAccess (req : Request) : M Request :=
  match user req with
  | None => throw (CustomError "Authentication required" 401)
  | Some u =>
      match Js.or_else (get (params req) "organizationId")
                       (get (body req) "organizationId") with
      | None => throw (CustomError "Organization ID required" 400)
      | Some organizationId =>
          if negb (Js.truthy (Some organizationId))
          then throw (CustomError "Organization ID required" 400)
          else
            organizationUser <- Prisma.organizationUser_findUnique (au_id u) organizationId ;;
            match organizationUser with
            | None => throw (CustomError "Access denied to organization" 403)
            | Some _ =>
                ret (with_user req
                       (mkAuthUser (au_id u) (au_email u) (au_role u)
                                   (Some organizationId)))
            end
      end
  end.

(** [optionalAuth]: always calls [next()], with or without [req.user]. *)
Definition optionalAuth (req : Request) (now : Date) : M Request :=
  try_catch
    (match bearer req with
     | None => ret req
     | Some token =>
         if negb (Js.truthy (Some token))
         then ret req
         else
           decoded <- verify token now ;;
           found <- Prisma.user_findUnique_id (jwt_userId decoded) ;;
           match found with
           | Some user =>
               if user_isActive user
               then ret (with_user req
                           (mkAuthUser (user_id user) (user_email user)
                                       (user_role user) None))
               else ret req
           | None => ret req
           end
     end)
    (fun _ => ret req).

End Middleware.
End Auth.

(** ** express-validator chains

    A chain validates and sanitizes one field of [req.body].  A field that is
    absent reads as the empty string; an [optional()] chain skips an absent
    field.  [validationResult(req).isEmpty()] is the conjunction of the
    checks, and the handler reads the sanitized body. *)

Module Validator.

Definition field (b : Obj) (k : string) : string :=
  match get b k with
  | Some v => v
  | None => EmptyString
  end.

Definition sanitize (f : string -> string) (k : string) (b : Obj) : Obj :=
  set b k (f (field b k)).

Definition sanitize_optional (f : string -> string) (k : string) (b : Obj) : Obj :=
  match get b k with
  | Some v => set b k (f v)
  | None => b
  end.

(** [.isLength({min})] *)
Definition isLength_min (min : nat) (v : string) : bool :=
  Nat.leb min (String.length v).

(** [.trim().isLength({min: 1})] *)
Definition trimmed_nonempty (b : Obj) (k : string) : bool :=
  isLength_min 1 (Js.trim (field b k)).

(** [.optional().trim().isLength({min: 1})] *)
Definition optional_trimmed_nonempty (b : Obj) (k : string) : bool :=
  match get b k with
  | Some v => isLength_min 1 (Js.trim v)
  | None => true
  end.

(** [.notEmpty()] *)
Definition notEmpty (v : string) : bool := negb (String.eqb v EmptyString).

Section Chains.
Context {P : Platform}.

Definition registerValidation (b : Obj) : bool * Obj :=
  (isEmail (field b "email")
   && isLength_min 8 (field b "password")
   && trimmed_nonempty b "firstName"
   && trimmed_nonempty b "lastName",
   sanitize_optional Js.trim "company"
     (sanitize Js.trim "lastName"
        (sanitize Js.trim "firstName"
           (sanitize normalizeEmail "email" b)))).

Definition loginValidation (b : Obj) : bool * Obj :=
  (isEmail (field b "email") && notEmpty (field b "password"),
   sanitize normalizeEmail "email" b).

Definition createOrganizationValidation (b : Obj) : bool * Obj :=
  (trimmed_nonempty b "name",
   sanitize_optional Js.trim "industry"
     (sanitize_optional Js.trim "description"
        (sanitize Js.trim "name" b))).

Definition updateOrganizationValidation (b : Obj) : bool * Obj :=
  (optional_trimmed_nonempty b "name",
   sanitize_optional Js.trim "industry"
     (sanitize_optional Js.trim "description"
        (sanitize_optional Js.trim "name" b))).

Definition addUserValidation (b : Obj) : bool * Obj :=
  (isEmail (field b "email")
   && Js.includes ["MEMBER"; "VIEWER"] (field b "role"),
   sanitize normalizeEmail "email" b).

(** The [coordinates] object is carried as its JSON text; [isObject()] is
    taken to hold for it. *)
Definition createSupplierValidation (b : Obj) : bool * Obj :=
  (trimmed_nonempty b "name"
   && trimmed_nonempty b "country"
   && isUUID (field b "organizationId"),
   sanitize_optional Js.trim "industry"
     (sanitize Js.trim "country"
        (sanitize Js.trim "name" b))).

End Chains.
End Validator.

(** ** routes/auth.ts *)

(** The columns of a user that the handlers select for a response; the
    password hash is never among them. *)
Record PublicUser := mkPublicUser {
  pu_id : Id;
  pu_email : string;
  pu_firstName : string;
  pu_lastName : string;
  pu_role : UserRole;
  pu_company : option string;
  pu_isActive : bool
}.

Definition public (u : User) : PublicUser :=
  mkPublicUser (user_id u) (user_email u) (user_firstName u) (user_lastName u)
               (user_role u) (user_company u) (user_isActive u).

(** Seven days, in milliseconds ([setDate(getDate() + 7)], away from a
    daylight-saving change). *)
Definition seven_days : Z := 604800000.

Module AuthRoutes.
Section Handlers.
Context {P : Platform}.

Record Credentials := mkCredentials {
  cred_user : PublicUser;
  cred_organizations : list OrganizationUser;
  cred_token : string;
  cred_expiresAt : Date
}.

(** [POST /register], once the rate limiter has let the request through. *)
Definition register (req : Request) (now : Date) : M (Response Credentials) :=
  let (valid, b) := Validator.registerValidation (body req) in
  if negb valid then throw (CustomError "Validation failed" 400)
  else
    let email := Validator.field b "email" in
    let password := Validator.field b "password" in
    let firstName := Validator.field b "firstName" in
    let lastName := Validator.field b "lastName" in
    let company := get b "company" in
    existingUser <- Prisma.user_findUnique_email email ;;
    match existingUser with
    | Some _ => throw (CustomError "User already exists with this email" 409)
    | None =>
        let saltRounds := 12 in
        let hashedPassword := bcrypt_hash password saltRounds in
        user <- Prisma.user_create now email hashedPassword firstName lastName
                                   company USER ;;
        let token := jwt_sign (mkJwtPayload (user_id user) (user_email user)) now in
        let expiresAt := (now + seven_days)%Z in
        _ <- Prisma.userSession_create (user_id user) token expiresAt ;;
        ret (mkResponse 201 (Some "User registered successfully")
                        (mkCredentials (public user) [] token expiresAt))
    end.

(** [POST /login], once the rate limiter has let the request through. *)
Definition login (req : Request) (now : Date) : M (Response Credentials) :=
  let (valid, b) := Validator.loginValidation (body req) in
  if negb valid then throw (CustomError "Validation failed" 400)
  else
    let email := Validator.field b "email" in
    let password := Validator.field b "password" in
    found <- Prisma.user_findUnique_email_with_organizations email ;;
    match found with
    | None => throw (CustomError "Invalid credentials" 401)
    | Some (user, organizations) =>
        if negb (user_isActive user)
        then throw (CustomError "Invalid credentials" 401)
        else
          let isPasswordValid := bcrypt_compare password (user_password user) in
          if negb isPasswordValid
          then throw (CustomError "Invalid credentials" 401)
          else
            let token := jwt_sign (mkJwtPayload (user_id user) (user_email user)) now in
            let expiresAt := (now + seven_days)%Z in
            _ <- Prisma.userSession_create (user_id user) token expiresAt ;;
            ret (mkResponse 200 (Some "Login successful")
                            (mkCredentials (public user) organizations token expiresAt))
    end.

(** [req.headers.authorization?.split(' ')[1]]. *)
Definition bearer_opt (req : Request) : option string :=
  match authorization req with
  | None => None
  | Some authHeader => nth_error (Js.split " " authHeader) 1
  end.

(** [POST /logout]. *)
Definition logout (req : Request) : M (Response unit) :=
  let token := bearer_opt req in
  match token with
  | Some t =>
      if Js.truthy token
      then _ <- Prisma.userSession_deleteMany t ;;
           ret (mkResponse 200 (Some "Logout successful") tt)
      else ret (mkResponse 200 (Some "Logout successful") tt)
  | None => ret (mkResponse 200 (Some "Logout successful") tt)
  end.

(** The [data.user] of [GET /me] and of the profile route: the selected
    columns and the memberships with their organizations. *)
Record Profile := mkProfile {
  profile_user : PublicUser;
  profile_organizations : list (OrganizationUser * option Organization)
}.

(** [GET /me]: not mounted behind [authenticateToken]; an error of
    [jwt.verify] is thrown as it is. *)
Definition me (req : Request) (now : Date) : M (Response Profile) :=
  let token := bearer_opt req in
  match token with
  | None => throw (CustomError "Authentication required" 401)
  | Some t =>
      if negb (Js.truthy token)
      then throw (CustomError "Authentication required" 401)
      else
        decoded <- Auth.verify t now ;;
        found <- Prisma.user_findUnique_id_with_organization_details
                   (jwt_userId decoded) ;;
        match found with
        | None => throw (CustomError "User not found" 404)
        | Some (user, organizations) =>
            if negb (user_isActive user)
            then throw (CustomError "User not found" 404)
            else ret (mkResponse 200 None (mkProfile (public user) organizations))
        end
  end.

Record Refreshed := mkRefreshed {
  refreshed_token : string;
  refreshed_expiresAt : Date
}.

(** [POST /refresh]. *)
Definition refresh (req : Request) (now : Date) : M (Response Refreshed) :=
  let refreshToken := get (body req) "refreshToken" in
  match refreshToken with
  | None => throw (CustomError "Refresh token required" 400)
  | Some t =>
      if negb (Js.truthy refreshToken)
      then throw (CustomError "Refresh token required" 400)
      else
        decoded <- Auth.verify t now ;;
        found <- Prisma.user_findUnique_id (jwt_userId decoded) ;;
        match found with
        | None => throw (CustomError "Invalid refresh token" 401)
        | Some user =>
            if negb (user_isActive user)
            then throw (CustomError "Invalid refresh token" 401)
            else
              let newToken :=
                jwt_sign (mkJwtPayload (user_id user) (user_email user)) now in
              let expiresAt := (now + seven_days)%Z in
              _ <- Prisma.userSession_updateMany_token t newToken expiresAt ;;
              ret (mkResponse 200 None (mkRefreshed newToken expiresAt))
        end
  end.

(** The answer of [POST /forgot-password] in both of its branches. *)
Definition reset_link_sent : Response unit :=
  mkResponse 200
    (Some "If an account with that email exists, a password reset link has been sent")
    tt.

(** [POST /forgot-password], once the rate limiter has let the request
    through. *)
Definition forgotPassword (req : Request) : M (Response unit) :=
  let email := get (body req) "email" in
  match email with
  | None => throw (CustomError "Email is required" 400)
  | Some e =>
      if negb (Js.truthy email)
      then throw (CustomError "Email is required" 400)
      else
        found <- Prisma.user_findUnique_email e ;;
        match found with
        | None => ret reset_link_sent
        | Some _ => ret reset_link_sent
        end
  end.

End Handlers.
End AuthRoutes.

(** [req.user!.id]: reading [id] of an absent user is a TypeError. *)
Definition user_bang (req : Request) : M AuthUser :=
  match user req with
  | Some u => ret u
  | None => throw (JsError "TypeError")
  end.

(** A path parameter of a matched route is always present. *)
Definition param (req : Request) (k : string) : Id :=
  Validator.field (params req) k.

(** ** routes/organizations.ts *)

Module OrganizationRoutes.
Section Handlers.
Context {P : Platform}.

Definition parse_OrgRole (s : string) : option OrgRole :=
  if String.eqb s "OWNER" then Some OWNER
  else if String.eqb s "ADMIN" then Some ORG_ADMIN
  else if String.eqb s "MEMBER" then Some MEMBER
  else if String.eqb s "VIEWER" then Some VIEWER
  else None.

(** [['OWNER', 'ADMIN'].includes(orgUser.role)] *)
Definition owner_or_admin (r : OrgRole) : bool :=
  existsb (OrgRole_eqb r) [OWNER; ORG_ADMIN].

(** [POST /], after [authenticateToken]. *)
Definition createOrganization (req : Request) : M (Response Organization) :=
  let (valid, b) := Validator.createOrganizationValidation (body req) in
  if negb valid then throw (CustomError "Validation failed" 400)
  else
    u <- user_bang req ;;
    organization <- Prisma.organization_create (Validator.field b "name")
                      (get b "description") (get b "industry") ;;
    _ <- Prisma.organizationUser_create (au_id u) (org_id organization) OWNER ;;
    ret (mkResponse 201 (Some "Organization created successfully") organization).

Record OrganizationDetails := mkOrganizationDetails {
  od_organization : Prisma.OrganizationWithCount;
  od_userRole : OrgRole
}.

(** [GET /:organizationId], after [authenticateToken]. *)
Definition getOrganization (req : Request) : M (Response OrganizationDetails) :=
  let organizationId := param req "organizationId" in
  u <- user_bang req ;;
  orgUser <- Prisma.organizationUser_findUnique_with_organization (au_id u) organizationId ;;
  match orgUser with
  | None => throw (CustomError "Organization not found or access denied" 404)
  | Some (m, organization) =>
      ret (mkResponse 200 None (mkOrganizationDetails organization (ou_role m)))
  end.

(** [PUT /:organizationId], after [authenticateToken]. *)
Definition updateOrganization (req : Request) : M (Response Organization) :=
  let (valid, b) := Validator.updateOrganizationValidation (body req) in
  if negb valid then throw (CustomError "Validation failed" 400)
  else
    let organizationId := param req "organizationId" in
    let name := get b "name" in
    u <- user_bang req ;;
    orgUser <- Prisma.organizationUser_findUnique (au_id u) organizationId ;;
    match orgUser with
    | None => throw (CustomError "Insufficient permissions" 403)
    | Some m =>
        if negb (owner_or_admin (ou_role m))
        then throw (CustomError "Insufficient permissions" 403)
        else
          organization <- Prisma.organization_update organizationId
                            (if Js.truthy name then name else None)
                            (get b "description") (get b "industry") ;;
          ret (mkResponse 200 (Some "Organization updated successfully") organization)
    end.

(** [POST /:organizationId/users], after [authenticateToken]. *)
Definition addUser (req : Request) : M (Response (OrganizationUser * PublicUser)) :=
  let (valid, b) := Validator.addUserValidation (body req) in
  if negb valid then throw (CustomError "Validation failed" 400)
  else
    let organizationId := param req "organizationId" in
    let email := Validator.field b "email" in
    u <- user_bang req ;;
    orgUser <- Prisma.organizationUser_findUnique (au_id u) organizationId ;;
    match orgUser with
    | None => throw (CustomError "Insufficient permissions" 403)
    | Some m =>
        if negb (owner_or_admin (ou_role m))
        then throw (CustomError "Insufficient permissions" 403)
        else
          found <- Prisma.user_findUnique_email email ;;
          match found with
          | None => throw (CustomError "User not found" 404)
          | Some target =>
              existingOrgUser <- Prisma.organizationUser_findUnique
                                   (user_id target) organizationId ;;
              match existingOrgUser with
              | Some _ => throw (CustomError "User already in organization" 409)
              | None =>
                  match parse_OrgRole (Validator.field b "role") with
                  | None => throw (PrismaError "PrismaClientValidationError")
                  | Some role =>
                      newOrgUser <- Prisma.organizationUser_create
                                      (user_id target) organizationId role ;;
                      ret (mkResponse 201
                             (Some "User added to organization successfully")
                             (newOrgUser, public target))
                  end
              end
          end
    end.

(** The [include: {user: ..}] of a membership row. *)
Definition include_user (db : DB) (m : OrganizationUser)
  : OrganizationUser * option PublicUser :=
  (m, option_map public (find (Prisma.id_is (ou_userId m)) (users db))).

(** [GET /:organizationId/users], after [authenticateToken]. *)
Definition getOrganizationUsers (req : Request)
  : M (Response (list (OrganizationUser * option PublicUser))) :=
  let organizationId := param req "organizationId" in
  u <- user_bang req ;;
  orgUser <- Prisma.organizationUser_findUnique (au_id u) organizationId ;;
  match orgUser with
  | None => throw (CustomError "Organization not found or access denied" 404)
  | Some _ =>
      members <- query TOrganizationUser FindMany (fun db =>
                   map (include_user db)
                       (filter (fun m => String.eqb (ou_organizationId m) organizationId)
                               (organizationUsers db))) ;;
      ret (mkResponse 200 None members)
  end.

(** [GET /], after [authenticateToken]: the organizations of the caller,
    each with the caller's role in it. *)
Definition getOrganizations (req : Request)
  : M (Response (list (option Organization * OrgRole))) :=
  u <- user_bang req ;;
  organizations <- Prisma.organizationUser_findMany_user (au_id u) ;;
  ret (mkResponse 200 None
         (map (fun org => (snd org, ou_role (fst org))) organizations)).

End Handlers.
End OrganizationRoutes.

(** ** routes/suppliers.ts *)

Module SupplierRoutes.
Section Handlers.
Context {P : Platform}.

(** [POST /], after [authenticateToken]. *)
Definition createSupplier (req : Request) (now : Date) : M (Response Supplier) :=
  let (valid, b) := Validator.createSupplierValidation (body req) in
  if negb valid then throw (CustomError "Validation failed" 400)
  else
    supplier <- Prisma.supplier_create now
                  (Validator.field b "name") (Validator.field b "country")
                  (get b "industry") (get b "coordinates")
                  (Validator.field b "organizationId") ;;
    ret (mkResponse 201 (Some "Supplier created successfully") supplier).

Record Pagination := mkPagination {
  pg_page : nat;
  pg_limit : nat;
  pg_total : nat;
  (** [Math.ceil(total / limit)]; [None] when it is not finite. *)
  pg_pages : option nat
}.

Record SupplierPage := mkSupplierPage {
  sp_suppliers : list Supplier;
  sp_pagination : Pagination
}.

(** [Number(req.query.k)] with the default [d] for an absent key. *)
Definition number_or (q : Obj) (k : string) (d : nat) : option nat :=
  match get q k with
  | None => Some d
  | Some v => toNumber v
  end.

Definition ceil_div (total limit : nat) : option nat :=
  match limit with
  | 0 => None
  | S _ => Some ((total + limit - 1) / limit)
  end.

(** [GET /], after [authenticateToken].  A page or limit that is not a
    natural number, and a negative [skip], make [findMany] reject. *)
Definition getSuppliers (req : Request) : M (Response SupplierPage) :=
  u <- user_bang req ;;
  let organizationId := get (req_query req) "organizationId" in
  userOrg <- Prisma.organizationUser_findFirst (au_id u) ;;
  match userOrg with
  | None =>
      ret (mkResponse 200 None
             (mkSupplierPage [] (mkPagination 1 10 0 (Some 0))))
  | Some m =>
      match number_or (req_query req) "page" 1,
            number_or (req_query req) "limit" 10 with
      | Some page, Some limit =>
          let skip := ((Z.of_nat page - 1) * Z.of_nat limit)%Z in
          let where_organizationId :=
            match Js.or_else organizationId (Some (ou_organizationId m)) with
            | Some o => o
            | None => ou_organizationId m
            end in
          if Z.ltb skip 0 then throw (PrismaError "PrismaClientValidationError")
          else
            suppliers <- Prisma.supplier_findMany where_organizationId
                           (Z.to_nat skip) limit ;;
            total <- Prisma.supplier_count where_organizationId ;;
            ret (mkResponse 200 None
                   (mkSupplierPage suppliers
                      (mkPagination page limit total (ceil_div total limit))))
      | _, _ => throw (PrismaError "PrismaClientValidationError")
      end
  end.

End Handlers.
End SupplierRoutes.

(** ** routes/users.ts *)

Module UserRoutes.
Section Handlers.
Context {P : Platform}.

(** [{contains: search, mode: 'insensitive'}] of the store. *)
Variable contains_insensitive : string -> string -> bool.

(** [GET /profile], after [authenticateToken]. *)
Definition getProfile (req : Request) : M (Response AuthRoutes.Profile) :=
  u <- user_bang req ;;
  found <- Prisma.user_findUnique_id_with_organization_details (au_id u) ;;
  match found with
  | None => throw (JsError "User not found")
  | Some (user, organizations) =>
      ret (mkResponse 200 None (AuthRoutes.mkProfile (public user) organizations))
  end.

(** [PUT /profile], after [authenticateToken]. *)
Definition updateProfile (req : Request) : M (Response PublicUser) :=
  u <- user_bang req ;;
  user <- Prisma.user_update_profile (au_id u)
            (get (body req) "firstName") (get (body req) "lastName")
            (get (body req) "company") ;;
  ret (mkResponse 200 (Some "Profile updated successfully") (public user)).

Record UserPage := mkUserPage {
  up_users : list PublicUser;
  up_pagination : SupplierRoutes.Pagination
}.

(** The [OR] filter of the listing. *)
Definition matches_search (search : string) (u : User) : bool :=
  contains_insensitive (user_firstName u) search
  || contains_insensitive (user_lastName u) search
  || contains_insensitive (user_email u) search.

(** [GET /], after [authenticateToken] and [requireRole(['ADMIN'])]. *)
Definition getUsers (req : Request) : M (Response UserPage) :=
  let search := Validator.field (req_query req) "search" in
  match SupplierRoutes.number_or (req_query req) "page" 1,
        SupplierRoutes.number_or (req_query req) "limit" 10 with
  | Some page, Some limit =>
      let skip := ((Z.of_nat page - 1) * Z.of_nat limit)%Z in
      let selected (db : DB) :=
        if Js.truthy (Some search)
        then filter (matches_search search) (users db)
        else users db in
      if Z.ltb skip 0 then throw (PrismaError "PrismaClientValidationError")
      else
        users <- query TUser FindMany (fun db =>
                   map public
                     (firstn limit (skipn (Z.to_nat skip)
                        (Prisma.order_by_desc user_createdAt (selected db))))) ;;
        total <- query TUser Count (fun db => length (selected db)) ;;
        ret (mkResponse 200 None
               (mkUserPage users
                  (SupplierRoutes.mkPagination page limit total
                     (SupplierRoutes.ceil_div total limit))))
  | _, _ => throw (PrismaError "PrismaClientValidationError")
  end.

End Handlers.
End UserRoutes.

(** ** routes/monitoring.ts and routes/alerts.ts *)

Module MonitoringRoutes.

(** [GET /zones], after [authenticateToken]. *)
Definition getZones (req : Request) : M (Response (list MonitoringZone)) :=
  u <- user_bang req ;;
  userOrg <- Prisma.organizationUser_findFirst (au_id u) ;;
  match userOrg with
  | None => ret (mkResponse 200 None [])
  | Some m =>
      zones <- Prisma.monitoringZone_findMany (ou_organizationId m) ;;
      ret (mkResponse 200 None zones)
  end.

End MonitoringRoutes.

Module AlertRoutes.

(** [PATCH /:alertId/read], after [authenticateToken]. *)
Definition markAlertRead (req : Request) : M (Response unit) :=
  let alertId := param req "alertId" in
  u <- user_bang req ;;
  count <- Prisma.alert_updateMany_read alertId (au_id u) ;;
  if Nat.eqb count 0 then throw (JsError "Alert not found")
  else ret (mkResponse 200 (Some "Alert marked as read") tt).

End AlertRoutes.

(** ** The routers: [router.METHOD(path, authenticateToken, handler)] *)

Module Routes.
Section Wiring.
Context {P : Platform}.

(** A handler mounted behind [authenticateToken]. *)
Definition protected {A} (handler : Request -> M A) (req : Request) (now : Date)
  : M A :=
  req' <- Auth.authenticateToken req now ;;
  handler req'.

Definition GET_organization := protected OrganizationRoutes.getOrganization.
Definition PUT_organization := protected OrganizationRoutes.updateOrganization.
Definition POST_organization_users := protected OrganizationRoutes.addUser.
Definition GET_organization_users := protected OrganizationRoutes.getOrganizationUsers.
Definition GET_suppliers := protected SupplierRoutes.getSuppliers.
Definition POST_suppliers (req : Request) (now : Date) :=
  protected (fun r => SupplierRoutes.createSupplier r now) req now.
Definition GET_monitoring_zones := protected MonitoringRoutes.getZones.
Definition PATCH_alert_read := protected AlertRoutes.markAlertRead.

(** A handler mounted behind [authenticateToken] and [requireRole(roles)]. *)
Definition protected_for {A} (roles : list UserRole) (handler : Request -> M A)
    (req : Request) (now : Date) : M A :=
  req' <- Auth.authenticateToken req now ;;
  req'' <- Auth.requireRole roles req' ;;
  handler req''.

Definition GET_organizations := protected OrganizationRoutes.getOrganizations.
Definition POST_organizations := protected OrganizationRoutes.createOrganization.
Definition GET_users_profile := protected UserRoutes.getProfile.
Definition PUT_users_profile := protected UserRoutes.updateProfile.
Definition GET_users (contains_insensitive : string -> string -> bool) :=
  protected_for [ADMIN] (UserRoutes.getUsers contains_insensitive).

End Wiring.
End Routes.

(** ** A concrete platform and a concrete store, for running the handlers *)

Module Scenario.

(** Tokens are [jwt:<userId>:<email>]; every other string fails to verify. *)
Definition sign (p : JwtPayload) (now : Date) : string :=
  "jwt:" ++ jwt_userId p ++ ":" ++ jwt_email p.

Definition verify (token : string) (now : Date) : option JwtPayload :=
  match Js.split ":" token with
  | [tag; userId; email] =>
      if String.eqb tag "jwt" then Some (mkJwtPayload userId email) else None
  | _ => None
  end.

Definition hash (password : string) (rounds : nat) : string := "bcrypt:" ++ password.

Definition compare (password hashed : string) : bool :=
  String.eqb hashed (hash password 12).

Fixpoint contains (c : ascii) (s : string) : bool :=
  match s with
  | EmptyString => false
  | String x rest => Ascii.eqb x c || contains c rest
  end.

Definition digit (c : ascii) : option nat :=
  let n := nat_of_ascii c in
  if Nat.leb 48 n && Nat.leb n 57 then Some (n - 48) else None.

Fixpoint number_from (acc : nat) (s : string) : option nat :=
  match s with
  | EmptyString => Some acc
  | String c rest =>
      match digit c with
      | Some d => number_from (10 * acc + d) rest
      | None => None
      end
  end.

Fixpoint tally (n : nat) : string :=
  match n with
  | 0 => EmptyString
  | S k => String "i" (tally k)
  end.

#[local] Instance platform : Platform := {|
  jwt_sign := sign;
  jwt_verify := verify;
  bcrypt_hash := hash;
  bcrypt_compare := compare;
  isEmail := contains "@";
  normalizeEmail := fun e => e;
  isUUID := fun s => Nat.eqb (String.length s) 36;
  toNumber := number_from 0;
  uuid := fun n => "row-" ++ tally n
|}.

Definition org1 : Id := "00000000-0000-4000-8000-000000000001".
Definition org2 : Id := "00000000-0000-4000-8000-000000000002".

Definition alice : User :=
  mkUser "u-alice" "alice@example.com" (hash "password123" 12)
         "Alice" "A" None USER true 1000%Z.

Definition bob : User :=
  mkUser "u-bob" "bob@example.com" (hash "hunter2hunter2" 12)
         "Bob" "B" None USER true 1000%Z.

Definition carol : User :=
  mkUser "u-carol" "carol@example.com" (hash "correct horse" 12)
         "Carol" "C" None USER false 1000%Z.

Definition dave : User :=
  mkUser "u-dave" "dave@example.com" (hash "davedavedave" 12)
         "Dave" "D" None USER true 1000%Z.

Definition erin : User :=
  mkUser "u-erin" "erin@example.com" (hash "erinerinerin" 12)
         "Erin" "E" None USER true 1000%Z.

Definition token_of (u : User) : string :=
  sign (mkJwtPayload (user_id u) (user_email u)) 1000%Z.

Definition sup1 : Supplier :=
  mkSupplier "sup-1" "Tropical Timber Co." "Brazil" None None org1 1100%Z.

Definition sup2 : Supplier :=
  mkSupplier "sup-2" "Mining Solutions Ltd." "Congo" None None org2 1200%Z.

(** Alice owns organization 1 and Erin is a member of it; Bob is a viewer
    of organization 2; Carol is deactivated; Dave belongs to no organization.
    Alice, Bob and Dave hold a live session; Erin's session row has expired;
    Carol has none. *)
Definition db0 : DB :=
  mkDB [alice; bob; carol; dave; erin]
       [mkUserSession "s-1" "u-alice" (token_of alice) 5000%Z;
        mkUserSession "s-2" "u-bob" (token_of bob) 5000%Z;
        mkUserSession "s-3" "u-dave" (token_of dave) 5000%Z;
        mkUserSession "s-4" "u-erin" (token_of erin) 1500%Z]
       [mkOrganization org1 "Org One" None None;
        mkOrganization org2 "Org Two" None None]
       [mkOrganizationUser "u-alice" org1 OWNER;
        mkOrganizationUser "u-bob" org2 VIEWER;
        mkOrganizationUser "u-erin" org1 MEMBER]
       [sup1; sup2]
       []
       [mkAlert "al-1" "u-alice" org1 "High Deforestation Risk Detected" false]
       9.

(** The time of the requests below. *)
Definition t0 : Date := 2000%Z.

(** [Authorization: Bearer <token>] with path parameters, query and body. *)
Definition request (token : string) (ps q b : Obj) : Request :=
  mkRequest (Some ("Bearer " ++ token)) ps q b None.

Definition bearer_request (token : string) : Request :=
  mkRequest (Some ("Bearer " ++ token)) [] [] [] None.

Definition as_user (u : User) (organizationId : option Id)
    (ps q b : Obj) : Request :=
  mkRequest None ps q b
    (Some (mkAuthUser (user_id u) (user_email u) (user_role u) organizationId)).

(** Two registrations with one email. *)
Definition register_frank : Request :=
  mkRequest None [] []
    [("email", "frank@example.com"); ("password", "frankfrank");
     ("firstName", "Frank"); ("lastName", "F")] None.

Definition register_frank_again : Request :=
  mkRequest None [] []
    [("email", "frank@example.com"); ("password", "another-password");
     ("firstName", "Franklin"); ("lastName", "F")] None.

(** The store with every session row gone. *)
Definition db_signed_out : DB := set_userSessions db0 [].


Definition login_frank : Request :=
  mkRequest None [] []
    [("email", "frank@example.com"); ("password", "frankfrank")] None.

(** A platform whose tokens carry the time of signing,
    [jwt:<userId>:<email>:<stamp>], so that a refresh hands out a token that
    differs from the one presented. *)
Definition sign_stamped (p : JwtPayload) (now : Date) : string :=
  "jwt:" ++ jwt_userId p ++ ":" ++ jwt_email p ++ ":" ++ tally (Z.to_nat now).

Definition verify_stamped (token : string) (now : Date) : option JwtPayload :=
  match Js.split ":" token with
  | [tag; userId; email; _] =>
      if String.eqb tag "jwt" then Some (mkJwtPayload userId email) else None
  | _ => None
  end.

Definition stamping_platform : Platform := {|
  jwt_sign := sign_stamped;
  jwt_verify := verify_stamped;
  bcrypt_hash := hash;
  bcrypt_compare := compare;
  isEmail := contains "@";
  normalizeEmail := fun e => e;
  isUUID := fun s => Nat.eqb (String.length s) 36;
  toNumber := number_from 0;
  uuid := fun n => "row-" ++ tally n
|}.

(** Alice's token signed at time 1, and the store in which her one session
    row carries it. *)
Definition alice_stamped : string :=
  sign_stamped (mkJwtPayload (user_id alice) (user_email alice)) 1%Z.

Definition db_stamped : DB :=
  set_userSessions db0 [mkUserSession "s-1" "u-alice" alice_stamped 5000%Z].

Definition refresh_request (token : string) : Request :=
  mkRequest None [] [] [("refreshToken", token)] None.

Definition sup3 : Supplier :=
  mkSupplier "sup-3" "Agricultural Partners" "Indonesia" None None org1 1300%Z.

Definition sup4 : Supplier :=
  mkSupplier "sup-4" "Sustainable Materials Inc." "Canada" None None org1 1050%Z.

(** Organization 1 with three suppliers, organization 2 with one. *)
Definition db_suppliers : DB := set_suppliers db0 [sup1; sup2; sup3; sup4].

Definition zone1 : MonitoringZone :=
  mkMonitoringZone "zone-1" "Amazon Basin Monitoring" org1 1100%Z.

Definition zone2 : MonitoringZone :=
  mkMonitoringZone "zone-2" "Congo Basin Monitoring" org2 1200%Z.

(** The store with one monitoring zone in each organization. *)
Definition db_zones : DB :=
  mkDB (users db0) (userSessions db0) (organizations db0) (organizationUsers db0)
       (suppliers db0) [zone1; zone2] (alerts db0) (nextId db0).

(** Alice adds Dave to organization 1 as a viewer. *)
Definition add_dave : Request :=
  as_user alice (Some org1) [("organizationId", org1)] []
          [("email", "dave@example.com"); ("role", "VIEWER")].

(** Alice lists suppliers. *)
Definition list_suppliers (q : Obj) : Request := as_user alice (Some org1) [] q [].

End Scenario.

(** * Vocabulary of the properties *)

(** The middleware or handler ended in [next(new CustomError(_, code))]. *)
Definition rejected {A} (o : Out A) (code : nat) : Prop :=
  exists message, result o = inl (CustomError message code).

(** No row of the session table carries [token] and is still live at [now]. *)
Definition no_live_session (db : DB) (token : string) (now : Date) : Prop :=
  forall s, In s (userSessions db) -> session_token s = token ->
            (session_expiresAt s <= now)%Z.

(** The user row and the membership the validator reads for a decoded
    token, and the session row it requires. *)
Definition user_lookup (db : DB) (decoded : JwtPayload) : option User :=
  find (Prisma.id_is (jwt_userId decoded)) (users db).

Definition first_membership (db : DB) (userId : Id) : option OrganizationUser :=
  find (Prisma.member_of userId) (organizationUsers db).

Definition session_lookup (db : DB) (u : User) (token : string) (now : Date)
  : option UserSession :=
  find (Prisma.session_live (user_id u) token now) (userSessions db).

(** The Authorization Context built from a user row and its first
    membership. *)
Definition context_of (db : DB) (decoded : JwtPayload) (u : User) : AuthUser :=
  mkAuthUser (user_id u) (user_email u) (user_role u)
    (option_map ou_organizationId (first_membership db (jwt_userId decoded))).

(** [userId] has no membership row for [organizationId]. *)
Definition no_membership (db : DB) (userId organizationId : Id) : Prop :=
  forall m, In m (organizationUsers db) ->
            ~ (ou_userId m = userId /\ ou_organizationId m = organizationId).

(** [userId] has a membership row for [organizationId], and its row (the one
    [findUnique] returns) carries [role]. *)
Definition membership_role (db : DB) (userId organizationId : Id) (role : OrgRole)
  : Prop :=
  exists m, find (Prisma.membership_is userId organizationId) (organizationUsers db)
            = Some m /\ ou_role m = role.

(** Why a login is refused. *)
Inductive LoginFailure := UnknownEmail | InactiveUser | PasswordMismatch.

Section LoginVocabulary.
Context {P : Platform}.

(** The email and password the login handler reads after validation. *)
Definition login_email (req : Request) : string :=
  Validator.field (snd (Validator.loginValidation (body req))) "email".

Definition login_password (req : Request) : string :=
  Validator.field (snd (Validator.loginValidation (body req))) "password".

Definition login_fails_by (req : Request) (db : DB) (cause : LoginFailure) : Prop :=
  let found := find (Prisma.email_is (login_email req)) (users db) in
  match cause with
  | UnknownEmail => found = None
  | InactiveUser => exists u, found = Some u /\ user_isActive u = false
  | PasswordMismatch =>
      exists u, found = Some u /\ user_isActive u = true
                /\ bcrypt_compare (login_password req) (user_password u) = false
  end.

End LoginVocabulary.



(** What a middleware decided, apart from the request it echoes: the error
    it passed on, or the context it attached. *)
Definition verdict (o : Out Request) : Thrown + option AuthUser :=
  match result o with
  | inl e => inl e
  | inr r => inr (user r)
  end.

(** The string has no space character. *)
Fixpoint no_space (s : string) : bool :=
  match s with
  | EmptyString => true
  | String c rest => negb (Ascii.eqb c " ") && no_space rest
  end.

(** [userId] has a membership row for [organizationId]. *)
Definition is_member (db : DB) (userId organizationId : Id) : Prop :=
  exists m, In m (organizationUsers db)
            /\ ou_userId m = userId /\ ou_organizationId m = organizationId.

Section CredentialVocabulary.
Context {P : Platform}.

(** The user row a registration writes when it succeeds. *)
Definition registered_user (req : Request) (now : Date) (db : DB) : User :=
  let b := snd (Validator.registerValidation (body req)) in
  mkUser (uuid (nextId db)) (normalizeEmail (Validator.field (body req) "email"))
         (bcrypt_hash (Validator.field (body req) "password") 12)
         (Validator.field b "firstName") (Validator.field b "lastName")
         (get b "company") USER Prisma.default_isActive now.

(** The token the credential routes sign for a user. *)
Definition issued_token (u : User) (now : Date) : string :=
  jwt_sign (mkJwtPayload (user_id u) (user_email u)) now.

End CredentialVocabulary.

(** No organization has an empty name. *)
Definition names_nonblank (db : DB) : Prop :=
  forall o, In o (organizations db) -> org_name o <> EmptyString.


(** The rows the supplier listing reads for page [page] (counted from 1) of
    organization [o]: [findMany] with [skip = (page - 1) * limit] and
    [take = limit]. *)
Definition supplier_page (db : DB) (o : Id) (page limit : nat) : list Supplier :=
  match result (Prisma.supplier_findMany o
                  (Z.to_nat ((Z.of_nat page - 1) * Z.of_nat limit)) limit db) with
  | inr rows => rows
  | inl _ => []
  end.

(** The columns of a user that a profile update must leave alone. *)
Definition account_columns (u : User)
  : Id * string * string * UserRole * bool * Date :=
  (user_id u, user_email u, user_password u, user_role u, user_isActive u,
   user_createdAt u).

(** ** The validation chain in the words of the design document

    Follows the document, not the source: after the signature check the
    Session row is looked up by token value and must have [expiresAt > now],
    then the User is looked up by id and must be active, then the
    memberships are loaded and the first one found is selected. *)

Module Spec.
Section Order.
Context {P : Platform}.

Definition userSession_findFirst_token (token : string) : M (option UserSession) :=
  query TUserSession FindFirst (fun db =>
    find (fun s => String.eqb (session_token s) token) (userSessions db)).

Definition organizationUser_findMany_user (userId : Id) : M (list OrganizationUser) :=
  query TOrganizationUser FindMany (fun db =>
    filter (Prisma.member_of userId) (organizationUsers db)).

Definition authenticateToken_spec_order (req : Request) (now : Date) : M Request :=
  try_catch
    (match Auth.bearer req with
     | None => throw (CustomError "Access token required" 401)
     | Some token =>
         if negb (Js.truthy (Some token))
         then throw (CustomError "Access token required" 401)
         else
           decoded <- Auth.verify token now ;;
           session <- userSession_findFirst_token token ;;
           match session with
           | None => throw (CustomError "Session expired" 401)
           | Some s =>
               if negb (Z.ltb now (session_expiresAt s))
               then throw (CustomError "Session expired" 401)
               else
                 found <- Prisma.user_findUnique_id (jwt_userId decoded) ;;
                 match found with
                 | None => throw (CustomError "User not found or inactive" 401)
                 | Some user =>
                     if negb (user_isActive user)
                     then throw (CustomError "User not found or inactive" 401)
                     else
                       memberships <- organizationUser_findMany_user (user_id user) ;;
                       ret (with_user req
                              (mkAuthUser (user_id user) (user_email user)
                                 (user_role user)
                                 (option_map ou_organizationId (hd_error memberships))))
                 end
           end
     end)
    Auth.authenticate_catch.

(** The source validator behaves as the documented chain does: same
    outcome, same store calls in the same order. *)
Definition checks_in_documented_order (req : Request) (now : Date) (db : DB) : Prop :=
  Auth.authenticateToken req now db = authenticateToken_spec_order req now db.


End Order.
End Spec.

(** * Properties *)

Example split_bearer : Js.split " " "Bearer abc" = ["Bearer"; "abc"].
Proof. reflexivity. Qed.

Example split_double_space : Js.split " " "Bearer  abc" = ["Bearer"; EmptyString; "abc"].
Proof. reflexivity. Qed.

Example trim_both : Js.trim "  Acme Corp " = "Acme Corp".
Proof. reflexivity. Qed.

Section AuthFacts.
Context {P : Platform}.

Lemma no_live_session_find db userId token now :
  no_live_session db token now ->
  find (Prisma.session_live userId token now) (userSessions db) = None.
Proof.
  intros Hno.
  destruct (find _ _) as [s|] eqn:Hfind; [|reflexivity].
  apply find_some in Hfind as [Hin Hlive].
  unfold Prisma.session_live in Hlive.
  apply andb_prop in Hlive as [Hlive Hexp].
  apply andb_prop in Hlive as [_ Htok].
  apply String.eqb_eq in Htok.
  apply Z.ltb_lt in Hexp.
  specialize (Hno s Hin Htok). lia.
Qed.

(** Without a live session row for the presented token the validator ends in
    a 401, whatever else holds of the request, and writes nothing. *)
Lemma authenticateToken_needs_session req now db token :
  Auth.bearer req = Some token ->
  no_live_session db token now ->
  rejected (Auth.authenticateToken req now db) 401
  /\ db_after (Auth.authenticateToken req now db) = db.
Proof.
  intros Hb Hno.
  unfold Auth.authenticateToken, try_catch, rejected. rewrite Hb.
  destruct (Js.truthy (Some token)); cbn.
  2: { split; [eexists; reflexivity | reflexivity]. }
  unfold Auth.verify. destruct (jwt_verify token now) as [decoded|]; cbn.
  2: { split; [eexists; reflexivity | reflexivity]. }
  destruct (find (Prisma.id_is (jwt_userId decoded)) (users db)) as [u|]; cbn.
  2: { split; [eexists; reflexivity | reflexivity]. }
  destruct (user_isActive u); cbn.
  2: { split; [eexists; reflexivity | reflexivity]. }
  rewrite (no_live_session_find db (user_id u) token now Hno). cbn.
  split; [eexists; reflexivity | reflexivity].
Qed.

Lemma bearer_opt_of_bearer req token :
  Auth.bearer req = Some token -> Js.truthy (Some token) = true ->
  AuthRoutes.bearer_opt req = Some token.
Proof.
  unfold Auth.bearer, AuthRoutes.bearer_opt.
  destruct (authorization req) as [h|]; [|discriminate].
  destruct (Js.truthy (Some h)) eqn:Hh; [tauto|].
  intros [= ->] Ht. congruence.
Qed.

(** Logout leaves no session row that carries the presented token. *)
Lemma logout_deletes_sessions req db token now :
  Auth.bearer req = Some token -> Js.truthy (Some token) = true ->
  no_live_session (db_after (AuthRoutes.logout req db)) token now.
Proof.
  intros Hb Ht. unfold AuthRoutes.logout.
  rewrite (bearer_opt_of_bearer _ _ Hb Ht), Ht. cbn.
  intros s Hin Htok. apply filter_In in Hin as [_ Hkeep].
  rewrite <- Htok, String.eqb_refl in Hkeep. discriminate.
Qed.

(** C2. A token whose signature verifies is still refused with 401 by
    [authenticateToken] when no session row carrying it is live: either
    because every such row has [expiresAt <= now], or because logout deleted
    the rows. *)
Theorem C2_verified_token_needs_live_session req now db token decoded :
  Auth.bearer req = Some token ->
  jwt_verify token now = Some decoded ->
  (no_live_session db token now ->
   rejected (Auth.authenticateToken req now db) 401)
  /\ rejected (Auth.authenticateToken req now
                 (db_after (AuthRoutes.logout req db))) 401.
Proof.
  intros Hb _. split.
  - intros Hno. now apply authenticateToken_needs_session with (token := token).
  - destruct (Js.truthy (Some token)) eqn:Ht.
    + apply authenticateToken_needs_session with (token := token); [assumption|].
      now apply logout_deletes_sessions.
    + unfold Auth.authenticateToken, try_catch, rejected.
      rewrite Hb, Ht. cbn. eexists. reflexivity.
Qed.

Lemma hd_error_filter {A} (p : A -> bool) (l : list A) :
  hd_error (filter p l) = find p l.
Proof.
  induction l as [|x l IH]; cbn; [reflexivity|].
  destruct (p x); [reflexivity | exact IH].
Qed.

Lemma find_is_some {A} (p : A -> bool) (l : list A) (x : A) :
  In x l -> p x = true -> exists y, find p l = Some y.
Proof.
  intros Hin Hp. destruct (find p l) as [y|] eqn:Hf; [eauto|].
  rewrite (find_none _ _ Hf x Hin) in Hp. discriminate.
Qed.

Lemma authenticateToken_accepts req now db token decoded u s :
  Auth.bearer req = Some token -> Js.truthy (Some token) = true ->
  jwt_verify token now = Some decoded ->
  user_lookup db decoded = Some u -> user_isActive u = true ->
  session_lookup db u token now = Some s ->
  Auth.authenticateToken req now db
  = mkOut (inr (with_user req (context_of db decoded u))) db
          [(TUser, FindUnique); (TUserSession, FindFirst)].
Proof.
  unfold user_lookup, session_lookup, context_of, first_membership.
  intros Hb Ht Hv Hu Ha Hs.
  unfold Auth.authenticateToken, try_catch.
  rewrite Hb, Ht. cbn. unfold Auth.verify. rewrite Hv. cbn.
  rewrite Hu. cbn. rewrite Ha. cbn. rewrite Hs. cbn.
  rewrite hd_error_filter. reflexivity.
Qed.


(** C3, as the source has it.  The checks run in this order: bearer token,
    signature, User row by id (with its memberships) and [isActive], Session
    row by user id and token with [expiresAt > now], then the context with
    the first membership.  A failing check is reported whatever the later
    ones would find, and only the store calls before it have been made. *)
Theorem C3_checks_run_token_signature_user_session req now db :
  (Js.truthy (Auth.bearer req) = false ->
   Auth.authenticateToken req now db
   = mkOut (inl (CustomError "Access token required" 401)) db [])
  /\ (forall token,
        Auth.bearer req = Some token -> Js.truthy (Some token) = true ->
        (jwt_verify token now = None ->
         Auth.authenticateToken req now db
         = mkOut (inl (CustomError "Invalid token" 401)) db [])
        /\ (forall decoded,
              jwt_verify token now = Some decoded ->
              ((user_lookup db decoded = None
                \/ (exists u, user_lookup db decoded = Some u
                              /\ user_isActive u = false)) ->
               Auth.authenticateToken req now db
               = mkOut (inl (CustomError "User not found or inactive" 401)) db
                       [(TUser, FindUnique)])
              /\ (forall u,
                    user_lookup db decoded = Some u -> user_isActive u = true ->
                    (session_lookup db u token now = None ->
                     Auth.authenticateToken req now db
                     = mkOut (inl (CustomError "Session expired" 401)) db
                             [(TUser, FindUnique); (TUserSession, FindFirst)])
                    /\ (forall s,
                          session_lookup db u token now = Some s ->
                          Auth.authenticateToken req now db
                          = mkOut (inr (with_user req (context_of db decoded u))) db
                                  [(TUser, FindUnique); (TUserSession, FindFirst)])))).
Proof.
  split.
  - unfold Auth.authenticateToken, try_catch.
    destruct (Auth.bearer req) as [token|]; [|reflexivity].
    intros Ht. rewrite Ht. reflexivity.
  - intros token Hb Ht. split.
    + intros Hv. unfold Auth.authenticateToken, try_catch.
      rewrite Hb, Ht. cbn. unfold Auth.verify. rewrite Hv. reflexivity.
    + intros decoded Hv. split.
      * unfold user_lookup. intros Hu.
        unfold Auth.authenticateToken, try_catch.
        rewrite Hb, Ht. cbn. unfold Auth.verify. rewrite Hv. cbn.
        destruct Hu as [Hu | (u & Hu & Ha)]; rewrite Hu; cbn;
          [reflexivity | rewrite Ha; reflexivity].
      * intros u Hu Ha. split.
        -- unfold user_lookup, session_lookup in *. intros Hs.
           unfold Auth.authenticateToken, try_catch.
           rewrite Hb, Ht. cbn. unfold Auth.verify. rewrite Hv. cbn.
           rewrite Hu. cbn. rewrite Ha. cbn. rewrite Hs. reflexivity.
        -- intros s Hs. now apply authenticateToken_accepts with (token := token) (s := s).
Qed.

(** [optionalAuth] never throws and never writes. *)
Lemma optionalAuth_proceeds req now db :
  exists req', result (Auth.optionalAuth req now db) = inr req'
               /\ db_after (Auth.optionalAuth req now db) = db.
Proof.
  unfold Auth.optionalAuth, try_catch.
  destruct (Auth.bearer req) as [token|]; [|cbn; eauto].
  destruct (Js.truthy (Some token)); cbn; [|eauto].
  unfold Auth.verify. destruct (jwt_verify token now) as [decoded|]; cbn; [|eauto].
  destruct (find _ _) as [u|]; cbn; [|eauto].
  destruct (user_isActive u); cbn; eauto.
Qed.


(** Acceptance by [authenticateToken] means every check passed. *)
Lemma authenticateToken_accepted_inv req now db accepted :
  result (Auth.authenticateToken req now db) = inr accepted ->
  exists token decoded u s,
    Auth.bearer req = Some token /\ Js.truthy (Some token) = true
    /\ jwt_verify token now = Some decoded
    /\ user_lookup db decoded = Some u /\ user_isActive u = true
    /\ session_lookup db u token now = Some s
    /\ accepted = with_user req (context_of db decoded u).
Proof.
  unfold Auth.authenticateToken, try_catch, user_lookup, session_lookup, context_of,
    first_membership.
  destruct (Auth.bearer req) as [token|] eqn:Hb; [|discriminate].
  destruct (Js.truthy (Some token)) eqn:Ht; cbn; [|discriminate].
  unfold Auth.verify. destruct (jwt_verify token now) as [decoded|] eqn:Hv; cbn;
    [|discriminate].
  destruct (find (Prisma.id_is _) _) as [u|] eqn:Hu; cbn; [|discriminate].
  destruct (user_isActive u) eqn:Ha; cbn; [|discriminate].
  destruct (find (Prisma.session_live _ _ _) _) as [s|] eqn:Hs; cbn; [|discriminate].
  intros [= <-]. exists token, decoded, u, s.
  rewrite hd_error_filter. repeat split; assumption.
Qed.


End AuthFacts.

(** ** Objects *)

Lemma get_set_same (o : Obj) (k v : string) : get (set o k v) k = Some v.
Proof.
  induction o as [|[k' v'] o IH]; cbn.
  - now rewrite String.eqb_refl.
  - destruct (String.eqb k' k) eqn:E; cbn.
    + now rewrite String.eqb_refl.
    + now rewrite E.
Qed.

Lemma get_set_other (o : Obj) (k k' v : string) :
  k <> k' -> get (set o k v) k' = get o k'.
Proof.
  intros Hne. induction o as [|[k0 v0] o IH]; cbn.
  - destruct (String.eqb k k') eqn:E; [apply String.eqb_eq in E; contradiction|reflexivity].
  - destruct (String.eqb k0 k) eqn:E; cbn.
    + apply String.eqb_eq in E. subst k0.
      destruct (String.eqb k k') eqn:E'; [apply String.eqb_eq in E'; contradiction|reflexivity].
    + destruct (String.eqb k0 k'); [reflexivity | exact IH].
Qed.

Lemma field_sanitize_same f k b :
  Validator.field (Validator.sanitize f k b) k = f (Validator.field b k).
Proof. unfold Validator.sanitize, Validator.field at 1. now rewrite get_set_same. Qed.

Lemma field_sanitize_other f k k' b :
  k <> k' -> Validator.field (Validator.sanitize f k b) k' = Validator.field b k'.
Proof.
  intros Hne. unfold Validator.sanitize, Validator.field at 1 3.
  now rewrite get_set_other.
Qed.

Lemma field_sanitize_optional_other f k k' b :
  k <> k' -> Validator.field (Validator.sanitize_optional f k b) k' = Validator.field b k'.
Proof.
  intros Hne. unfold Validator.sanitize_optional.
  destruct (get b k); [|reflexivity].
  unfold Validator.field. now rewrite get_set_other.
Qed.

(** ** Organizations *)

Lemma no_membership_find db userId organizationId :
  no_membership db userId organizationId ->
  find (Prisma.membership_is userId organizationId) (organizationUsers db) = None.
Proof.
  intros Hno. destruct (find _ _) as [m|] eqn:Hf; [|reflexivity].
  apply find_some in Hf as [Hin Hm]. unfold Prisma.membership_is in Hm.
  apply andb_prop in Hm as [Hu Ho].
  apply String.eqb_eq in Hu, Ho. now destruct (Hno m Hin).
Qed.

(** C4. A caller with no membership in the organization named by the path
    gets the 404 [Organization not found or access denied] from both by-id
    reads, never a 403; the answer is the same value for every store without
    that membership, so it does not tell whether the organization exists. *)
Theorem C4_read_without_membership_is_not_found req db u :
  user req = Some u ->
  no_membership db (au_id u) (param req "organizationId") ->
  result (OrganizationRoutes.getOrganization req db)
  = inl (CustomError "Organization not found or access denied" 404)
  /\ result (OrganizationRoutes.getOrganizationUsers req db)
     = inl (CustomError "Organization not found or access denied" 404)
  /\ forall db',
       no_membership db' (au_id u) (param req "organizationId") ->
       result (OrganizationRoutes.getOrganization req db')
       = result (OrganizationRoutes.getOrganization req db)
       /\ result (OrganizationRoutes.getOrganizationUsers req db')
          = result (OrganizationRoutes.getOrganizationUsers req db).
Proof.
  intros Hu Hno.
  assert (Hget : forall d, no_membership d (au_id u) (param req "organizationId") ->
            result (OrganizationRoutes.getOrganization req d)
            = inl (CustomError "Organization not found or access denied" 404)).
  { intros d Hd. unfold OrganizationRoutes.getOrganization, bind, user_bang.
    rewrite Hu. cbn. rewrite (no_membership_find _ _ _ Hd). reflexivity. }
  assert (Husers : forall d, no_membership d (au_id u) (param req "organizationId") ->
            result (OrganizationRoutes.getOrganizationUsers req d)
            = inl (CustomError "Organization not found or access denied" 404)).
  { intros d Hd. unfold OrganizationRoutes.getOrganizationUsers, bind, user_bang.
    rewrite Hu. cbn. rewrite (no_membership_find _ _ _ Hd). reflexivity. }
  split; [|split]; auto.
  intros db' Hno'. rewrite !Hget, !Husers by assumption. split; reflexivity.
Qed.


Section OrganizationFacts.
Context {P : Platform}.

(** X25. With a body that passes validation, updating the organization is
    refused with 403 for a member or viewer, and for a caller with no
    membership; nothing is written and the organization table is not read. *)
Lemma updateOrganization_forbidden req db u :
  fst (Validator.updateOrganizationValidation (body req)) = true ->
  user req = Some u ->
  (membership_role db (au_id u) (param req "organizationId") MEMBER
   \/ membership_role db (au_id u) (param req "organizationId") VIEWER
   \/ no_membership db (au_id u) (param req "organizationId")) ->
  OrganizationRoutes.updateOrganization req db
  = mkOut (inl (CustomError "Insufficient permissions" 403)) db
          [(TOrganizationUser, FindUnique)].
Proof.
  intros Hv Hu Hrole. unfold OrganizationRoutes.updateOrganization.
  destruct (Validator.updateOrganizationValidation (body req)) as [valid b].
  cbn in Hv. subst valid. cbn. unfold bind, user_bang. rewrite Hu. cbn.
  destruct Hrole as [(m & Hm & Hr) | [(m & Hm & Hr) | Hno]].
  - rewrite Hm. cbn. rewrite Hr. reflexivity.
  - rewrite Hm. cbn. rewrite Hr. reflexivity.
  - rewrite (no_membership_find _ _ _ Hno). reflexivity.
Qed.

(** X26. With a body that passes validation, adding a member is refused
    with 403 for a member or viewer, and for a caller with no membership,
    before the email is looked up; nothing is written. *)
Lemma addUser_forbidden req db u :
  fst (Validator.addUserValidation (body req)) = true ->
  user req = Some u ->
  (membership_role db (au_id u) (param req "organizationId") MEMBER
   \/ membership_role db (au_id u) (param req "organizationId") VIEWER
   \/ no_membership db (au_id u) (param req "organizationId")) ->
  OrganizationRoutes.addUser req db
  = mkOut (inl (CustomError "Insufficient permissions" 403)) db
          [(TOrganizationUser, FindUnique)].
Proof.
  intros Hv Hu Hrole. unfold OrganizationRoutes.addUser.
  destruct (Validator.addUserValidation (body req)) as [valid b].
  cbn in Hv. subst valid. cbn. unfold bind, user_bang. rewrite Hu. cbn.
  destruct Hrole as [(m & Hm & Hr) | [(m & Hm & Hr) | Hno]].
  - rewrite Hm. cbn. rewrite Hr. reflexivity.
  - rewrite Hm. cbn. rewrite Hr. reflexivity.
  - rewrite (no_membership_find _ _ _ Hno). reflexivity.
Qed.

End OrganizationFacts.

(** ** Login and registration *)

Section CredentialFacts.
Context {P : Platform}.

(** C6. A login that passes validation and fails because the email is
    unknown, the user is inactive or the password does not match ends in the
    same [CustomError "Invalid credentials" 401] in all three cases, after the
    same single store call and with the store untouched. *)
Theorem C6_login_failures_are_one_401 req now db cause :
  fst (Validator.loginValidation (body req)) = true ->
  login_fails_by req db cause ->
  AuthRoutes.login req now db
  = mkOut (inl (CustomError "Invalid credentials" 401)) db [(TUser, FindUnique)].
Proof.
  unfold login_fails_by, login_email, login_password, AuthRoutes.login.
  destruct (Validator.loginValidation (body req)) as [valid b]. cbn.
  intros -> Hcause. cbn. unfold bind. cbn.
  destruct cause.
  - rewrite Hcause. reflexivity.
  - destruct Hcause as (u & -> & Ha). cbn. rewrite Ha. reflexivity.
  - destruct Hcause as (u & -> & Ha & Hc). cbn. rewrite Ha. cbn. rewrite Hc. reflexivity.
Qed.

(** The email [register] stores and looks up is the normalized one. *)
Lemma register_email b :
  Validator.field (snd (Validator.registerValidation b)) "email"
  = normalizeEmail (Validator.field b "email").
Proof.
  cbn. rewrite field_sanitize_optional_other by discriminate.
  rewrite !field_sanitize_other by discriminate.
  apply field_sanitize_same.
Qed.

(** A valid registration for an email that is already there is refused with
    409 before anything is written. *)
Lemma register_conflict req now db u :
  fst (Validator.registerValidation (body req)) = true ->
  find (Prisma.email_is (normalizeEmail (Validator.field (body req) "email")))
       (users db) = Some u ->
  AuthRoutes.register req now db
  = mkOut (inl (CustomError "User already exists with this email" 409)) db
          [(TUser, FindUnique)].
Proof.
  intros Hv Hf. unfold AuthRoutes.register.
  pose proof (register_email (body req)) as He.
  destruct (Validator.registerValidation (body req)) as [valid b].
  cbn in Hv, He. subst valid. cbn. unfold bind. cbn.
  rewrite He, Hf. reflexivity.
Qed.

(** A registration that succeeds leaves a user row with its email. *)
Lemma register_success_inv req now db r :
  result (AuthRoutes.register req now db) = inr r ->
  exists u,
    users (db_after (AuthRoutes.register req now db)) = (users db ++ [u])%list
    /\ user_email u = normalizeEmail (Validator.field (body req) "email").
Proof.
  unfold AuthRoutes.register.
  pose proof (register_email (body req)) as He.
  destruct (Validator.registerValidation (body req)) as [valid b].
  cbn in He. destruct valid; cbn; [|discriminate].
  unfold bind. cbn.
  destruct (find _ (users db)) as [existing|]; cbn; [discriminate|].
  unfold Prisma.user_create, command.
  destruct (existsb _ (users db)); cbn; [discriminate|].
  intros _. eexists. split; [reflexivity|]. cbn. exact He.
Qed.

(** C8. After a registration has succeeded, a second valid registration with
    the same email is refused with 409 after one lookup, and the store it
    leaves is the store it found: no user row and no session row is added or
    changed. *)
Theorem C8_second_registration_conflicts req1 req2 now1 now2 db r :
  result (AuthRoutes.register req1 now1 db) = inr r ->
  fst (Validator.registerValidation (body req2)) = true ->
  get (body req2) "email" = get (body req1) "email" ->
  AuthRoutes.register req2 now2 (db_after (AuthRoutes.register req1 now1 db))
  = mkOut (inl (CustomError "User already exists with this email" 409))
          (db_after (AuthRoutes.register req1 now1 db))
          [(TUser, FindUnique)].
Proof.
  intros Hok Hv He.
  destruct (register_success_inv _ _ _ _ Hok) as (u & Husers & Hemail).
  assert (Hfield : Validator.field (body req2) "email"
                   = Validator.field (body req1) "email").
  { unfold Validator.field. now rewrite He. }
  destruct (find_is_some
              (Prisma.email_is (normalizeEmail (Validator.field (body req2) "email")))
              (users (db_after (AuthRoutes.register req1 now1 db))) u)
    as [existing Hfind].
  - rewrite Husers. apply in_or_app. right. now left.
  - unfold Prisma.email_is. rewrite Hemail, Hfield. apply String.eqb_refl.
  - now apply register_conflict with (u := existing).
Qed.

End CredentialFacts.

(** ** Alerts *)






(** ** Suppliers and monitoring zones *)

Lemma In_insert_desc {A} (key : A -> Date) (x s : A) (l : list A) :
  In x (Prisma.insert_desc key s l) <-> x = s \/ In x l.
Proof.
  induction l as [|y l IH]; cbn.
  - intuition.
  - destruct (Z.ltb (key y) (key s)); cbn; [intuition|].
    rewrite IH. intuition.
Qed.

Lemma In_order_by_desc {A} (key : A -> Date) (x : A) (l : list A) :
  In x (Prisma.order_by_desc key l) <-> In x l.
Proof.
  unfold Prisma.order_by_desc. induction l as [|y l IH]; cbn; [tauto|].
  rewrite In_insert_desc, IH. intuition.
Qed.

(** X28. The zone listing is scoped by a membership of the caller: every
    zone it returns belongs to an organization the caller has a membership
    row for. *)
Lemma getZones_scoped_by_membership req db u resp :
  user req = Some u ->
  result (MonitoringRoutes.getZones req db) = inr resp ->
  forall z, In z (data resp) ->
    exists m, In m (organizationUsers db) /\ ou_userId m = au_id u
              /\ ou_organizationId m = zone_organizationId z.
Proof.
  intros Hu. unfold MonitoringRoutes.getZones, bind, user_bang. rewrite Hu. cbn.
  destruct (find (Prisma.member_of (au_id u)) (organizationUsers db)) as [m|] eqn:Hm; cbn.
  - intros [= <-] z Hz. cbn in Hz.
    apply In_order_by_desc, filter_In in Hz as [_ Hz].
    apply find_some in Hm as [Hin Hmem].
    apply String.eqb_eq in Hz, Hmem. exists m. auto.
  - intros [= <-] z [].
Qed.

Section SupplierFacts.
Context {P : Platform}.

(** The supplier listing filters by the [organizationId] of the query string
    whenever the caller has some membership, whichever organization that
    membership is for. *)
Lemma getSuppliers_filters_by_query req db u m o :
  user req = Some u ->
  first_membership db (au_id u) = Some m ->
  get (req_query req) "organizationId" = Some o -> Js.truthy (Some o) = true ->
  get (req_query req) "page" = None -> get (req_query req) "limit" = None ->
  exists pagination,
    result (SupplierRoutes.getSuppliers req db)
    = inr (mkResponse 200 None
             (SupplierRoutes.mkSupplierPage
                (firstn 10 (Prisma.order_by_desc supplier_createdAt
                              (filter (Prisma.in_organization o) (suppliers db))))
                pagination)).
Proof.
  unfold first_membership. intros Hu Hm Ho Ht Hp Hl.
  unfold SupplierRoutes.getSuppliers, bind, user_bang. rewrite Hu. cbn.
  rewrite Hm. cbn. unfold SupplierRoutes.number_or. rewrite Hp, Hl, Ho.
  unfold Js.or_else. rewrite Ht. cbn. eauto.
Qed.

(** X29. A caller with no membership gets the empty page after the one
    membership lookup, whatever organization, page or limit the query string
    asks for. *)
Lemma getSuppliers_no_membership_empty req db u :
  user req = Some u ->
  first_membership db (au_id u) = None ->
  SupplierRoutes.getSuppliers req db
  = mkOut (inr (mkResponse 200 None
                  (SupplierRoutes.mkSupplierPage []
                     (SupplierRoutes.mkPagination 1 10 0 (Some 0)))))
          db [(TOrganizationUser, FindFirst)].
Proof.
  unfold first_membership. intros Hu Hm.
  unfold SupplierRoutes.getSuppliers, bind, user_bang. rewrite Hu. cbn.
  rewrite Hm. reflexivity.
Qed.

(** Creating a supplier with a valid body succeeds for any caller and any
    [organizationId]: the handler reads no membership row. *)
Lemma createSupplier_reads_no_membership req now db :
  fst (Validator.createSupplierValidation (body req)) = true ->
  exists s,
    result (SupplierRoutes.createSupplier req now db)
    = inr (mkResponse 201 (Some "Supplier created successfully") s)
    /\ supplier_organizationId s = Validator.field (body req) "organizationId"
    /\ suppliers (db_after (SupplierRoutes.createSupplier req now db))
       = (suppliers db ++ [s])%list
    /\ queries (SupplierRoutes.createSupplier req now db) = [(TSupplier, Create)].
Proof.
  intros Hv. unfold SupplierRoutes.createSupplier.
  assert (Ho : Validator.field (snd (Validator.createSupplierValidation (body req)))
                 "organizationId" = Validator.field (body req) "organizationId").
  { cbn. rewrite field_sanitize_optional_other by discriminate.
    now rewrite !field_sanitize_other by discriminate. }
  destruct (Validator.createSupplierValidation (body req)) as [valid b].
  cbn in Hv, Ho. subst valid. cbn. eexists. repeat split. cbn. exact Ho.
Qed.

End SupplierFacts.

(** * The handlers on a concrete store *)

Section Runs.
Import Scenario.
#[local] Existing Instance Scenario.platform.

(** Case analysis over the rows of a concrete table. *)
Ltac each_row H :=
  cbn in H;
  repeat match type of H with
         | _ \/ _ => destruct H as [H | H]
         | False => destruct H
         end;
  subst.

(** C1.  Alice belongs to organization 1 only.  Her listing with
    [?organizationId=<organization 2>] returns the supplier of organization
    2, and her create request with [organizationId = <organization 2>] adds
    a supplier to organization 2. *)
Theorem C1_suppliers_cross_organization :
  no_membership db0 (user_id alice) org2
  /\ (exists pagination,
        result (Routes.GET_suppliers
                  (request (token_of alice) [] [("organizationId", org2)] [])
                  t0 db0)
        = inr (mkResponse 200 None (SupplierRoutes.mkSupplierPage [sup2] pagination)))
  /\ (exists s,
        let o := Routes.POST_suppliers
                   (request (token_of alice) [] []
                      [("name", "Acme"); ("country", "Peru"); ("organizationId", org2)])
                   t0 db0 in
        result o = inr (mkResponse 201 (Some "Supplier created successfully") s)
        /\ supplier_organizationId s = org2
        /\ suppliers (db_after o) = [sup1; sup2; s]).
Proof.
  split; [|split].
  - intros m Hin [Hu Ho]. each_row Hin; discriminate.
  - eexists. vm_compute. reflexivity.
  - eexists. vm_compute. repeat split.
Qed.

(** C5.  Bob is a viewer of organization 2.  His update of the organization
    is refused with 403 and his read of it succeeds, but his create request
    for a supplier of organization 2 is answered 201 and the row is
    written. *)
Theorem C5_viewer_creates_supplier :
  membership_role db0 (user_id bob) org2 VIEWER
  /\ result (Routes.PUT_organization
               (request (token_of bob) [("organizationId", org2)] []
                        [("name", "Renamed")])
               t0 db0)
     = inl (CustomError "Insufficient permissions" 403)
  /\ (exists s,
        let o := Routes.POST_suppliers
                   (request (token_of bob) [] []
                      [("name", "Acme"); ("country", "Peru"); ("organizationId", org2)])
                   t0 db0 in
        result o = inr (mkResponse 201 (Some "Supplier created successfully") s)
        /\ supplier_organizationId s = org2
        /\ suppliers (db_after o) = [sup1; sup2; s]).
Proof.
  split; [|split].
  - eexists. split; reflexivity.
  - reflexivity.
  - eexists. vm_compute. repeat split.
Qed.

(** C3 fails as stated: for Carol, who is deactivated and has no session
    row, the source reports the user check after reading the User table
    only, where the documented order reports the session check. *)
Lemma C3_counterexample_user_checked_before_session :
  ~ Spec.checks_in_documented_order (bearer_request (token_of carol)) t0 db0.
Proof.
  unfold Spec.checks_in_documented_order. intros Heq.
  apply (f_equal result) in Heq. vm_compute in Heq. discriminate.
Qed.


(** Erin's token verifies but her only session row expired at 1500: the
    request at 2000 is refused, and so is Alice's after her logout. *)
Lemma C2_witness_expired_and_logged_out :
  rejected (Auth.authenticateToken (bearer_request (token_of erin)) t0 db0) 401
  /\ rejected (Auth.authenticateToken (bearer_request (token_of alice)) t0
                 (db_after (AuthRoutes.logout (bearer_request (token_of alice)) db0)))
              401.
Proof.
  split.
  - refine (proj1 (C2_verified_token_needs_live_session
                     (bearer_request (token_of erin)) t0 db0 (token_of erin)
                     (mkJwtPayload (user_id erin) (user_email erin))
                     eq_refl eq_refl) _).
    intros s Hin Htok. each_row Hin; vm_compute in Htok; try discriminate Htok.
    vm_compute. discriminate.
  - exact (proj2 (C2_verified_token_needs_live_session
                    (bearer_request (token_of alice)) t0 db0 (token_of alice)
                    (mkJwtPayload (user_id alice) (user_email alice))
                    eq_refl eq_refl)).
Defined.

(** Alice passes every check in turn and is given the context of her first
    membership, after the user lookup and then the session lookup. *)
Lemma C3_witness_accepted_in_order :
  Auth.authenticateToken (bearer_request (token_of alice)) t0 db0
  = mkOut (inr (with_user (bearer_request (token_of alice))
                  (mkAuthUser (user_id alice) (user_email alice) USER (Some org1))))
          db0 [(TUser, FindUnique); (TUserSession, FindFirst)].
Proof.
  destruct (C3_checks_run_token_signature_user_session
              (bearer_request (token_of alice)) t0 db0) as [_ Hrest].
  destruct (Hrest (token_of alice) eq_refl eq_refl) as [_ Hverified].
  destruct (Hverified (mkJwtPayload (user_id alice) (user_email alice)) eq_refl)
    as [_ Huser].
  destruct (Huser alice eq_refl eq_refl) as [_ Hsession].
  exact (Hsession (mkUserSession "s-1" "u-alice" (token_of alice) 5000%Z) eq_refl).
Defined.

(** Bob has no membership in organization 1: both by-id reads answer 404. *)
Lemma C4_witness_foreign_organization :
  result (OrganizationRoutes.getOrganization
            (as_user bob (Some org2) [("organizationId", org1)] [] []) db0)
  = inl (CustomError "Organization not found or access denied" 404)
  /\ result (OrganizationRoutes.getOrganizationUsers
               (as_user bob (Some org2) [("organizationId", org1)] [] []) db0)
     = inl (CustomError "Organization not found or access denied" 404).
Proof.
  assert (Hno : no_membership db0 (user_id bob) org1).
  { intros m Hin [Hu Ho]. each_row Hin; discriminate. }
  destruct (C4_read_without_membership_is_not_found
              (as_user bob (Some org2) [("organizationId", org1)] [] []) db0
              (mkAuthUser (user_id bob) (user_email bob) USER (Some org2))
              eq_refl Hno) as (Hget & Husers & _).
  split; assumption.
Defined.

(** An unknown email, deactivated Carol and a wrong password for Alice all
    get the same answer. *)
Lemma C6_witness_three_causes :
  let refused := mkOut (inl (CustomError "Invalid credentials" 401)) db0
                       [(TUser, FindUnique)] in
  AuthRoutes.login
    (mkRequest None [] [] [("email", "nobody@example.com"); ("password", "x")] None)
    t0 db0 = refused
  /\ AuthRoutes.login
       (mkRequest None [] [] [("email", "carol@example.com");
                              ("password", "correct horse")] None)
       t0 db0 = refused
  /\ AuthRoutes.login
       (mkRequest None [] [] [("email", "alice@example.com");
                              ("password", "password124")] None)
       t0 db0 = refused.
Proof.
  cbn zeta. split; [|split].
  - apply (C6_login_failures_are_one_401 _ t0 db0 UnknownEmail); reflexivity.
  - apply (C6_login_failures_are_one_401 _ t0 db0 InactiveUser); [reflexivity|].
    exists carol. split; reflexivity.
  - apply (C6_login_failures_are_one_401 _ t0 db0 PasswordMismatch); [reflexivity|].
    exists alice. repeat split.
Defined.


(** Frank registers, and registers again: the second call is a 409 and
    leaves the store of the first. *)
Lemma C8_witness_register_twice :
  AuthRoutes.register register_frank_again 3000%Z
    (db_after (AuthRoutes.register register_frank t0 db0))
  = mkOut (inl (CustomError "User already exists with this email" 409))
          (db_after (AuthRoutes.register register_frank t0 db0))
          [(TUser, FindUnique)].
Proof.
  eapply (C8_second_registration_conflicts register_frank register_frank_again
            t0 3000%Z db0); reflexivity.
Defined.



End Runs.

(** * Further properties of the middleware *)

Section MiddlewareFacts.
Context {P : Platform}.

(** The outcome of [authenticateToken], check by check. *)
Lemma authenticateToken_result req now db :
  result (Auth.authenticateToken req now db)
  = match Auth.bearer req with
    | None => inl (CustomError "Access token required" 401)
    | Some token =>
        if Js.truthy (Some token) then
          match jwt_verify token now with
          | None => inl (CustomError "Invalid token" 401)
          | Some decoded =>
              match user_lookup db decoded with
              | None => inl (CustomError "User not found or inactive" 401)
              | Some u =>
                  if user_isActive u then
                    match session_lookup db u token now with
                    | None => inl (CustomError "Session expired" 401)
                    | Some _ => inr (with_user req (context_of db decoded u))
                    end
                  else inl (CustomError "User not found or inactive" 401)
              end
          end
        else inl (CustomError "Access token required" 401)
    end.
Proof.
  unfold Auth.authenticateToken, try_catch, user_lookup, session_lookup, context_of,
    first_membership.
  destruct (Auth.bearer req) as [token|]; [|reflexivity].
  destruct (Js.truthy (Some token)); cbn; [|reflexivity].
  unfold Auth.verify. destruct (jwt_verify token now) as [decoded|]; cbn; [|reflexivity].
  destruct (find (Prisma.id_is _) _) as [u|]; cbn; [|reflexivity].
  destruct (user_isActive u); cbn; [|reflexivity].
  destruct (find (Prisma.session_live _ _ _) _); cbn; [|reflexivity].
  now rewrite hd_error_filter.
Qed.

(** [authenticateToken] writes nothing. *)
Lemma authenticateToken_reads_only req now db :
  db_after (Auth.authenticateToken req now db) = db.
Proof.
  unfold Auth.authenticateToken, try_catch.
  destruct (Auth.bearer req) as [token|]; [|reflexivity].
  destruct (Js.truthy (Some token)); cbn; [|reflexivity].
  unfold Auth.verify. destruct (jwt_verify token now) as [decoded|]; cbn; [|reflexivity].
  destruct (find (Prisma.id_is _) _) as [u|]; cbn; [|reflexivity].
  destruct (user_isActive u); cbn; [|reflexivity].
  destruct (find (Prisma.session_live _ _ _) _); reflexivity.
Qed.

Lemma find_id_is id l u :
  find (Prisma.id_is id) l = Some u -> In u l /\ user_id u = id.
Proof.
  intros Hf. apply find_some in Hf as [Hin Hid].
  apply String.eqb_eq in Hid. auto.
Qed.

(** X1. Whatever [authenticateToken] attaches describes a row of the store:
    the context carries the id, email and role of an active user, and its
    organization, when it has one, is an organization that user has a
    membership row for. *)
Theorem authenticateToken_context_is_backed_by_store req now db accepted ctx :
  result (Auth.authenticateToken req now db) = inr accepted ->
  user accepted = Some ctx ->
  (exists u, In u (users db) /\ user_isActive u = true
             /\ au_id ctx = user_id u /\ au_email ctx = user_email u
             /\ au_role ctx = user_role u)
  /\ (forall o, au_organizationId ctx = Some o -> is_member db (au_id ctx) o).
Proof.
  intros Hacc Hctx.
  apply authenticateToken_accepted_inv in Hacc
    as (token & decoded & u & s & _ & _ & _ & Hu & Ha & _ & ->).
  cbn in Hctx. injection Hctx as <-.
  apply find_id_is in Hu as [Hin Hid]. split.
  - exists u. cbn. auto.
  - cbn. unfold first_membership. intros o Ho.
    destruct (find _ _) as [m|] eqn:Hm; [|discriminate].
    cbn in Ho. injection Ho as <-.
    apply find_some in Hm as [Hmin Hmem]. apply String.eqb_eq in Hmem.
    exists m. repeat split; [assumption | congruence].
Qed.

Lemma split_no_space scheme rest :
  no_space scheme = true ->
  Js.split " " (scheme ++ " " ++ rest) = scheme :: Js.split " " rest.
Proof.
  change (" " ++ rest) with (String " "%char rest).
  induction scheme as [|c scheme IH]; cbn; [reflexivity|].
  intros Hc. apply andb_prop in Hc as [Hc Hs].
  destruct (Ascii.eqb c " "); [discriminate|].
  now rewrite (IH Hs).
Qed.

Lemma split_nonempty sep s : Js.split sep s <> [].
Proof.
  destruct s as [|c s]; cbn; [discriminate|].
  destruct (Ascii.eqb c sep); [discriminate|].
  destruct (Js.split sep s); discriminate.
Qed.

Lemma bearer_after_scheme scheme rest ps q b :
  no_space scheme = true ->
  Auth.bearer (mkRequest (Some (scheme ++ " " ++ rest)) ps q b None)
  = hd_error (Js.split " " rest).
Proof.
  intros Hs. unfold Auth.bearer. cbn [authorization].
  assert (Ht : Js.truthy (Some (scheme ++ " " ++ rest)) = true).
  { destruct scheme; reflexivity. }
  rewrite Ht, (split_no_space _ _ Hs). reflexivity.
Qed.

(** X2. The scheme word of the [Authorization] header is never looked at:
    with any space-free word in place of [Bearer], the empty word included,
    the validator reaches the same verdict. *)
Theorem authenticateToken_ignores_scheme scheme rest ps q b now db :
  no_space scheme = true ->
  verdict (Auth.authenticateToken
             (mkRequest (Some (scheme ++ " " ++ rest)) ps q b None) now db)
  = verdict (Auth.authenticateToken
               (mkRequest (Some ("Bearer " ++ rest)) ps q b None) now db).
Proof.
  intros Hs. unfold verdict. rewrite !authenticateToken_result.
  change ("Bearer " ++ rest) with ("Bearer" ++ " " ++ rest).
  rewrite (bearer_after_scheme scheme rest ps q b Hs).
  rewrite (bearer_after_scheme "Bearer" rest ps q b eq_refl).
  destruct (hd_error (Js.split " " rest)) as [token|]; [|reflexivity].
  destruct (Js.truthy (Some token)); [|reflexivity].
  destruct (jwt_verify token now) as [decoded|]; [|reflexivity].
  destruct (user_lookup db decoded) as [u|]; [|reflexivity].
  destruct (user_isActive u); [|reflexivity].
  destruct (session_lookup db u token now); reflexivity.
Qed.

End MiddlewareFacts.

(** X3. When [requireOrganizationAccess] lets a request through, the
    organization it writes into the context is one the caller has a
    membership row for, and it is the path parameter whenever the path has
    one, whatever the body says. *)
Theorem requireOrganizationAccess_sets_a_membership req db req' :
  result (Auth.requireOrganizationAccess req db) = inr req' ->
  exists ctx o,
    user req' = Some ctx /\ au_organizationId ctx = Some o
    /\ is_member db (au_id ctx) o
    /\ (Js.truthy (get (params req) "organizationId") = true ->
        get (params req) "organizationId" = Some o).
Proof.
  unfold Auth.requireOrganizationAccess.
  destruct (user req) as [u|]; [|discriminate].
  destruct (Js.or_else _ _) as [o|] eqn:Hor; [|discriminate].
  destruct (Js.truthy (Some o)); cbn; [|discriminate].
  unfold bind. cbn.
  destruct (find _ _) as [m|] eqn:Hm; cbn; [|discriminate].
  intros [= <-]. exists (mkAuthUser (au_id u) (au_email u) (au_role u) (Some o)), o.
  cbn. repeat split.
  - apply find_some in Hm as [Hin Hmem]. unfold Prisma.membership_is in Hmem.
    apply andb_prop in Hmem as [Hu Ho]. apply String.eqb_eq in Hu, Ho.
    exists m. auto.
  - intros Ht. unfold Js.or_else in Hor. now rewrite Ht in Hor.
Qed.

(** * Further properties of the credential routes *)

Lemma find_app_new {A} (p : A -> bool) (l : list A) (x : A) :
  find p l = None -> p x = true -> find p (l ++ [x]) = Some x.
Proof.
  induction l as [|y l IH]; cbn; intros Hn Hp.
  - now rewrite Hp.
  - destruct (p y); [discriminate | auto].
Qed.

Lemma find_filter_implied {A} (p q : A -> bool) (l : list A) :
  (forall x, p x = true -> q x = true) -> find p (filter q l) = find p l.
Proof.
  intros Hpq. induction l as [|x l IH]; cbn; [reflexivity|].
  destruct (q x) eqn:Hq; cbn.
  - destruct (p x); [reflexivity | exact IH].
  - destruct (p x) eqn:Hp; [|exact IH].
    rewrite (Hpq x Hp) in Hq. discriminate.
Qed.




Section SessionFacts.
Context {P : Platform}.

Lemma register_password b :
  Validator.field (snd (Validator.registerValidation b)) "password"
  = Validator.field b "password".
Proof.
  cbn. rewrite field_sanitize_optional_other by discriminate.
  now rewrite !field_sanitize_other by discriminate.
Qed.

Lemma register_success_shape req now db r :
  result (AuthRoutes.register req now db) = inr r ->
  let u := registered_user req now db in
  let token := issued_token u now in
  fst (Validator.registerValidation (body req)) = true
  /\ find (Prisma.email_is (user_email u)) (users db) = None
  /\ users (db_after (AuthRoutes.register req now db)) = (users db ++ [u])%list
  /\ userSessions (db_after (AuthRoutes.register req now db))
     = (userSessions db
        ++ [mkUserSession (uuid (S (nextId db))) (user_id u) token (now + seven_days)%Z])%list
  /\ organizationUsers (db_after (AuthRoutes.register req now db))
     = organizationUsers db
  /\ r = mkResponse 201 (Some "User registered successfully")
           (AuthRoutes.mkCredentials (public u) [] token (now + seven_days)%Z).
Proof.
  unfold registered_user, issued_token, AuthRoutes.register.
  pose proof (register_email (body req)) as He.
  pose proof (register_password (body req)) as Hp.
  destruct (Validator.registerValidation (body req)) as [valid b].
  cbn in He, Hp. destruct valid; cbn; [|discriminate].
  unfold bind. cbn. rewrite He, Hp.
  destruct (find _ (users db)) as [existing|] eqn:Hf; cbn; [discriminate|].
  unfold Prisma.user_create, command.
  destruct (existsb _ (users db)); cbn; [discriminate|].
  intros [= <-]. repeat split; reflexivity.
Qed.

(** X4. Register, then log in: a login with the email and password of a
    registration that succeeded is answered 200 for that very user, provided
    the password hash compares equal to its password. *)
Theorem register_then_login req now db r req' now' :
  result (AuthRoutes.register req now db) = inr r ->
  bcrypt_compare (Validator.field (body req) "password")
                 (bcrypt_hash (Validator.field (body req) "password") 12) = true ->
  get (body req') "email" = get (body req) "email" ->
  get (body req') "password" = get (body req) "password" ->
  exists resp,
    result (AuthRoutes.login req' now' (db_after (AuthRoutes.register req now db)))
    = inr resp
    /\ status resp = 200
    /\ AuthRoutes.cred_user (data resp) = AuthRoutes.cred_user (data r).
Proof.
  intros Hok Hcmp He Hp.
  destruct (register_success_shape _ _ _ _ Hok) as (Hv & Hnone & Husers & _ & _ & ->).
  set (u := registered_user req now db) in *.
  assert (Hfe : Validator.field (body req') "email" = Validator.field (body req) "email")
    by (unfold Validator.field; now rewrite He).
  assert (Hfp : Validator.field (body req') "password"
                = Validator.field (body req) "password")
    by (unfold Validator.field; now rewrite Hp).
  cbn in Hv. apply andb_prop in Hv as [Hv _]. apply andb_prop in Hv as [Hv _].
  apply andb_prop in Hv as [Hmail Hlen].
  assert (Hne : Validator.notEmpty (Validator.field (body req) "password") = true).
  { unfold Validator.isLength_min in Hlen. unfold Validator.notEmpty.
    destruct (Validator.field (body req) "password"); [discriminate | reflexivity]. }
  remember (db_after (AuthRoutes.register req now db)) as db1 eqn:Hdb1.
  unfold AuthRoutes.login. cbn. rewrite Hfe, Hfp, Hmail, Hne. cbn.
  unfold bind. cbn. rewrite field_sanitize_same, Hfe.
  rewrite field_sanitize_other by discriminate. rewrite Hfp.
  rewrite Husers.
  assert (Hfind : find (Prisma.email_is
                          (normalizeEmail (Validator.field (body req) "email")))
                       (users db ++ [u]) = Some u).
  { apply find_app_new; [exact Hnone|]. unfold Prisma.email_is. apply String.eqb_refl. }
  rewrite Hfind. cbn. rewrite Hcmp. cbn. eexists. repeat split.
Qed.


End SessionFacts.

Lemma set_userSessions_same db : set_userSessions db (userSessions db) = db.
Proof. now destruct db. Qed.

Lemma map_unless {A} (p : A -> bool) (f : A -> A) (l : list A) :
  (forall x, In x l -> p x = false) ->
  map (fun x => if p x then f x else x) l = l.
Proof.
  induction l as [|x l IH]; cbn; intros Hp; [reflexivity|].
  rewrite (Hp x) by now left. f_equal. apply IH. intros y Hy. apply Hp. now right.
Qed.

Section TokenLifeCycle.
Context {P : Platform}.



(** X7. Logging out one token leaves every other token as it was: a request
    whose bearer token differs from the one logged out gets the same outcome
    from [authenticateToken] after the logout as before it. *)
Theorem logout_leaves_other_tokens req1 req2 now db :
  AuthRoutes.bearer_opt req1 <> Auth.bearer req2 ->
  result (Auth.authenticateToken req2 now (db_after (AuthRoutes.logout req1 db)))
  = result (Auth.authenticateToken req2 now db).
Proof.
  intros Hne. unfold AuthRoutes.logout.
  destruct (AuthRoutes.bearer_opt req1) as [t|] eqn:Hb; [|reflexivity].
  destruct (Js.truthy (Some t)); [|reflexivity].
  cbn. rewrite !authenticateToken_result.
  destruct (Auth.bearer req2) as [token|]; [|reflexivity].
  destruct (Js.truthy (Some token)); [|reflexivity].
  destruct (jwt_verify token now) as [decoded|]; [|reflexivity].
  unfold user_lookup, session_lookup, context_of, first_membership. cbn.
  destruct (find (Prisma.id_is _) _) as [u|]; [|reflexivity].
  destruct (user_isActive u); [|reflexivity].
  rewrite find_filter_implied; [reflexivity|].
  intros s Hs. unfold Prisma.session_live in Hs.
  apply andb_prop in Hs as [Hs _]. apply andb_prop in Hs as [_ Hs].
  apply String.eqb_eq in Hs. rewrite Hs.
  destruct (String.eqb token t) eqn:E; [|reflexivity].
  apply String.eqb_eq in E. congruence.
Qed.

(** X8. [GET /me] does not read the session table: after a logout, with
    whatever header, it answers exactly as it did before. *)
Theorem me_is_unaffected_by_logout req req' now db :
  result (AuthRoutes.me req now (db_after (AuthRoutes.logout req' db)))
  = result (AuthRoutes.me req now db).
Proof.
  assert (Hsame : forall d l,
            result (AuthRoutes.me req now (set_userSessions d l))
            = result (AuthRoutes.me req now d)).
  { intros d l. unfold AuthRoutes.me.
    destruct (AuthRoutes.bearer_opt req) as [t|]; [|reflexivity].
    destruct (Js.truthy (Some t)); [|reflexivity]. cbn.
    unfold bind, Auth.verify.
    destruct (jwt_verify t now) as [decoded|]; cbn; [|reflexivity].
    destruct (find _ (users d)) as [u|]; cbn; [|reflexivity].
    destruct (user_isActive u); reflexivity. }
  unfold AuthRoutes.logout.
  destruct (AuthRoutes.bearer_opt req') as [t|]; [|reflexivity].
  destruct (Js.truthy (Some t)); [|reflexivity].
  cbn. apply Hsame.
Qed.

Lemma refresh_success_shape req now db r :
  result (AuthRoutes.refresh req now db) = inr r ->
  exists old decoded u,
    get (body req) "refreshToken" = Some old
    /\ jwt_verify old now = Some decoded
    /\ user_lookup db decoded = Some u /\ user_isActive u = true
    /\ r = mkResponse 200 None
             (AuthRoutes.mkRefreshed (issued_token u now) (now + seven_days)%Z)
    /\ db_after (AuthRoutes.refresh req now db)
       = set_userSessions db
           (map (fun s => if Prisma.carries old s
                          then mkUserSession (session_id s) (session_userId s)
                                 (issued_token u now) (now + seven_days)%Z
                          else s)
                (userSessions db)).
Proof.
  unfold AuthRoutes.refresh, user_lookup.
  destruct (get (body req) "refreshToken") as [old|]; [|discriminate].
  destruct (Js.truthy (Some old)); cbn; [|discriminate].
  unfold bind, Auth.verify.
  destruct (jwt_verify old now) as [decoded|] eqn:Hv; cbn; [|discriminate].
  destruct (find _ _) as [u|] eqn:Hu; cbn; [|discriminate].
  destruct (user_isActive u) eqn:Ha; cbn; [|discriminate].
  intros [= <-]. exists old, decoded, u. repeat split; auto.
Qed.

(** X9. A refresh that hands out a different token retires the old one: no
    session row carries it any more, so [authenticateToken] refuses it with
    401 at any later time; and the refresh neither adds nor removes a session
    row. *)
Theorem refresh_retires_the_old_token req now db r old :
  result (AuthRoutes.refresh req now db) = inr r ->
  get (body req) "refreshToken" = Some old ->
  AuthRoutes.refreshed_token (data r) <> old ->
  length (userSessions (db_after (AuthRoutes.refresh req now db)))
  = length (userSessions db)
  /\ forall req' now',
       Auth.bearer req' = Some old ->
       rejected (Auth.authenticateToken req' now'
                   (db_after (AuthRoutes.refresh req now db))) 401.
Proof.
  intros Hok Hold Hne.
  destruct (refresh_success_shape _ _ _ _ Hok)
    as (old' & decoded & u & Hold' & _ & _ & _ & -> & Hdb).
  rewrite Hold in Hold'. injection Hold' as <-. cbn in Hne.
  rewrite Hdb. cbn. split; [apply length_map|].
  intros req' now' Hb.
  apply (authenticateToken_needs_session req' now' _ old Hb).
  intros s Hs Hst. cbn in Hs. apply in_map_iff in Hs as (s0 & <- & _).
  unfold Prisma.carries in *.
  destruct (String.eqb (session_token s0) old) eqn:E; cbn in Hst.
  - contradiction.
  - rewrite Hst, String.eqb_refl in E. discriminate.
Qed.

(** X10. A refresh never creates a session: when no row carries the
    presented token (after a logout, say), the refresh still answers 200 with
    a new token and leaves the store exactly as it found it. *)
Theorem refresh_without_session_changes_nothing req now db r old :
  result (AuthRoutes.refresh req now db) = inr r ->
  get (body req) "refreshToken" = Some old ->
  (forall s, In s (userSessions db) -> session_token s <> old) ->
  status r = 200 /\ db_after (AuthRoutes.refresh req now db) = db.
Proof.
  intros Hok Hold Hnone.
  destruct (refresh_success_shape _ _ _ _ Hok)
    as (old' & decoded & u & Hold' & _ & _ & _ & -> & Hdb).
  rewrite Hold in Hold'. injection Hold' as <-.
  split; [reflexivity|]. rewrite Hdb, map_unless; [apply set_userSessions_same|].
  intros s Hs. unfold Prisma.carries.
  destruct (String.eqb (session_token s) old) eqn:E; [|reflexivity].
  apply String.eqb_eq in E. now destruct (Hnone s Hs).
Qed.


End TokenLifeCycle.

(** X12. [POST /forgot-password] gives nothing away: for one request the
    answer is the same in every store, whether or not a user with that email
    exists, and the store is left as it was. *)
Theorem forgotPassword_answers_alike req db db' :
  result (AuthRoutes.forgotPassword req db) = result (AuthRoutes.forgotPassword req db')
  /\ db_after (AuthRoutes.forgotPassword req db) = db.
Proof.
  unfold AuthRoutes.forgotPassword.
  destruct (get (body req) "email") as [e|]; [|split; reflexivity].
  destruct (Js.truthy (Some e)); cbn; [|split; reflexivity].
  unfold bind. cbn.
  destruct (find _ (users db)), (find _ (users db')); split; reflexivity.
Qed.

(** * Further properties of the organization routes *)

Lemma get_sanitize_optional_same f k b :
  get (Validator.sanitize_optional f k b) k = option_map f (get b k).
Proof.
  unfold Validator.sanitize_optional.
  destruct (get b k) as [v|] eqn:E; cbn; [apply get_set_same | exact E].
Qed.

Lemma get_sanitize_optional_other f k k' b :
  k <> k' -> get (Validator.sanitize_optional f k b) k' = get b k'.
Proof.
  intros Hne. unfold Validator.sanitize_optional.
  destruct (get b k); [now apply get_set_other | reflexivity].
Qed.

Lemma existsb_false_find {A} (p : A -> bool) (l : list A) :
  existsb p l = false -> find p l = None.
Proof.
  induction l as [|x l IH]; cbn; [reflexivity|].
  destruct (p x); [discriminate | exact IH].
Qed.

Lemma find_app_old {A} (p : A -> bool) (l l' : list A) (x : A) :
  find p l = Some x -> find p (l ++ l') = Some x.
Proof.
  induction l as [|y l IH]; cbn; [discriminate|].
  destruct (p y); [tauto | exact IH].
Qed.

Lemma nonempty_of_length_min v :
  Validator.isLength_min 1 v = true -> v <> EmptyString.
Proof. destruct v; [discriminate | discriminate]. Qed.

Section OrganizationLifeCycle.
Context {P : Platform}.

#[local] Arguments OrganizationRoutes.owner_or_admin : simpl never.

(** X13. Whoever creates an organization owns it: when
    [createOrganization] succeeds, the store has a membership row for the
    caller and the new organization, and the row [findUnique] returns for
    that pair carries the role OWNER. *)
Theorem createOrganization_makes_the_creator_owner req db u resp :
  user req = Some u ->
  result (OrganizationRoutes.createOrganization req db) = inr resp ->
  membership_role (db_after (OrganizationRoutes.createOrganization req db))
                  (au_id u) (org_id (data resp)) OWNER
  /\ In (data resp)
        (organizations (db_after (OrganizationRoutes.createOrganization req db))).
Proof.
  intros Hu. unfold OrganizationRoutes.createOrganization.
  destruct (Validator.createOrganizationValidation (body req)) as [valid b].
  destruct valid; cbn; [|discriminate].
  unfold bind, user_bang. rewrite Hu. cbn.
  unfold Prisma.organizationUser_create, command. cbn.
  destruct (existsb _ (organizationUsers db)) eqn:Hex; cbn; [discriminate|].
  intros [= <-]. cbn. split.
  - exists (mkOrganizationUser (au_id u) (uuid (nextId db)) OWNER).
    split; [|reflexivity].
    apply find_app_new; [now apply existsb_false_find|].
    unfold Prisma.membership_is. cbn. now rewrite !String.eqb_refl.
  - apply in_or_app. right. now left.
Qed.

Lemma addUser_role b :
  Validator.field (snd (Validator.addUserValidation b)) "role" = Validator.field b "role".
Proof. cbn. now rewrite field_sanitize_other by discriminate. Qed.

Lemma parse_offered_role v :
  Js.includes ["MEMBER"; "VIEWER"] v = true ->
  OrganizationRoutes.parse_OrgRole v = Some MEMBER
  \/ OrganizationRoutes.parse_OrgRole v = Some VIEWER.
Proof.
  unfold Js.includes. cbn. rewrite orb_false_r. intros Hv.
  apply orb_prop in Hv as [Hv | Hv]; apply String.eqb_eq in Hv; subst v; auto.
Qed.

(** X14. Adding a member can only hand out the roles MEMBER and VIEWER, and
    only in the organization of the path: every membership row in the store
    after [addUser] was there before, or is a MEMBER or VIEWER row of that
    organization. *)
Theorem addUser_grants_member_or_viewer_only req db m :
  In m (organizationUsers (db_after (OrganizationRoutes.addUser req db))) ->
  In m (organizationUsers db)
  \/ (ou_organizationId m = param req "organizationId"
      /\ (ou_role m = MEMBER \/ ou_role m = VIEWER)).
Proof.
  unfold OrganizationRoutes.addUser.
  pose proof (addUser_role (body req)) as Hrole.
  destruct (Validator.addUserValidation (body req)) as [valid b] eqn:Hval.
  cbn [snd] in Hrole. destruct valid; cbn; [|tauto].
  assert (Hin : Js.includes ["MEMBER"; "VIEWER"] (Validator.field (body req) "role") = true).
  { unfold Validator.addUserValidation in Hval. injection Hval as Hv _.
    apply andb_prop in Hv. tauto. }
  unfold bind, user_bang.
  destruct (user req) as [u|]; cbn; [|tauto].
  destruct (find _ (organizationUsers db)) as [caller|]; cbn; [|tauto].
  destruct (OrganizationRoutes.owner_or_admin (ou_role caller)); cbn; [|tauto].
  destruct (find _ (users db)) as [target|]; cbn; [|tauto].
  destruct (find _ (organizationUsers db)) as [existing|]; cbn; [tauto|].
  rewrite Hrole.
  destruct (parse_offered_role _ Hin) as [Hp | Hp]; rewrite Hp; cbn;
    unfold Prisma.organizationUser_create, command;
    destruct (existsb _ (organizationUsers db)); cbn; try tauto;
    intros Hm; apply in_app_or in Hm as [Hm | [<- | []]]; auto.
Qed.

Lemma addUser_success_shape req db resp :
  result (OrganizationRoutes.addUser req db) = inr resp ->
  exists u caller target role,
    fst (Validator.addUserValidation (body req)) = true
    /\ user req = Some u
    /\ find (Prisma.membership_is (au_id u) (param req "organizationId"))
            (organizationUsers db) = Some caller
    /\ OrganizationRoutes.owner_or_admin (ou_role caller) = true
    /\ find (Prisma.email_is
               (Validator.field (snd (Validator.addUserValidation (body req))) "email"))
            (users db) = Some target
    /\ find (Prisma.membership_is (user_id target) (param req "organizationId"))
            (organizationUsers db) = None
    /\ db_after (OrganizationRoutes.addUser req db)
       = set_organizationUsers db
           (organizationUsers db
            ++ [mkOrganizationUser (user_id target) (param req "organizationId") role]).
Proof.
  unfold OrganizationRoutes.addUser.
  destruct (Validator.addUserValidation (body req)) as [valid b].
  destruct valid; cbn; [|discriminate].
  unfold bind, user_bang.
  destruct (user req) as [u|]; cbn; [|discriminate].
  destruct (find _ (organizationUsers db)) as [caller|] eqn:Hcaller; cbn;
    [|discriminate].
  destruct (OrganizationRoutes.owner_or_admin (ou_role caller)) eqn:Hrole; cbn;
    [|discriminate].
  destruct (find _ (users db)) as [target|] eqn:Htarget; cbn; [|discriminate].
  destruct (find (Prisma.membership_is (user_id target) _) (organizationUsers db))
    as [existing|] eqn:Hexisting; cbn; [discriminate|].
  destruct (OrganizationRoutes.parse_OrgRole _) as [role|]; cbn; [|discriminate].
  unfold Prisma.organizationUser_create, command.
  destruct (existsb _ (organizationUsers db)); cbn; [discriminate|].
  intros _. exists u, caller, target, role. repeat split; auto.
Qed.

(** X15. Adding the same member a second time is refused with 409 and
    changes nothing: after an [addUser] that succeeded, the same request on
    the store it left throws [User already in organization]. *)
Theorem addUser_twice_conflicts req db resp :
  result (OrganizationRoutes.addUser req db) = inr resp ->
  OrganizationRoutes.addUser req (db_after (OrganizationRoutes.addUser req db))
  = mkOut (inl (CustomError "User already in organization" 409))
          (db_after (OrganizationRoutes.addUser req db))
          [(TOrganizationUser, FindUnique); (TUser, FindUnique);
           (TOrganizationUser, FindUnique)].
Proof.
  intros Hok.
  destruct (addUser_success_shape _ _ _ Hok)
    as (u & caller & target & role & Hv & Hu & Hcaller & Hrole & Htarget & Hnew & Hdb).
  rewrite Hdb. clear Hdb Hok.
  unfold OrganizationRoutes.addUser.
  destruct (Validator.addUserValidation (body req)) as [valid b].
  cbn in Hv, Htarget. subst valid. cbn.
  unfold bind, user_bang. rewrite Hu. cbn.
  rewrite (find_app_old _ _ _ _ Hcaller). cbn. rewrite Hrole. cbn.
  rewrite Htarget. cbn.
  rewrite (find_app_new _ _ _ Hnew)
    by (unfold Prisma.membership_is; cbn; now rewrite !String.eqb_refl).
  reflexivity.
Qed.

Lemma createOrganization_name b :
  Validator.field (snd (Validator.createOrganizationValidation b)) "name"
  = Js.trim (Validator.field b "name").
Proof.
  cbn. rewrite !field_sanitize_optional_other by discriminate.
  apply field_sanitize_same.
Qed.

Lemma updateOrganization_name b :
  get (snd (Validator.updateOrganizationValidation b)) "name"
  = option_map Js.trim (get b "name").
Proof.
  cbn. rewrite !get_sanitize_optional_other by discriminate.
  apply get_sanitize_optional_same.
Qed.

(** X16. Organization names never become empty: if no organization has an
    empty name, none has after [createOrganization] or after
    [updateOrganization], whatever the request and whether or not it
    succeeds. *)
Theorem organization_names_stay_nonblank req db :
  names_nonblank db ->
  names_nonblank (db_after (OrganizationRoutes.createOrganization req db))
  /\ names_nonblank (db_after (OrganizationRoutes.updateOrganization req db)).
Proof.
  intros Hinv. split.
  - unfold OrganizationRoutes.createOrganization.
    pose proof (createOrganization_name (body req)) as Hname.
    destruct (Validator.createOrganizationValidation (body req)) as [valid b] eqn:Hval.
    cbn [snd] in Hname. destruct valid; cbn; [|exact Hinv].
    assert (Hne : Validator.field b "name" <> EmptyString).
    { rewrite Hname. apply nonempty_of_length_min.
      unfold Validator.createOrganizationValidation in Hval. now injection Hval as Hv _. }
    unfold bind, user_bang.
    destruct (user req) as [u|]; cbn; [|exact Hinv].
    unfold Prisma.organizationUser_create, command. cbn.
    destruct (existsb _ (organizationUsers db)); cbn;
      intros o Ho; apply in_app_or in Ho as [Ho | [<- | []]]; auto.
  - unfold OrganizationRoutes.updateOrganization.
    pose proof (updateOrganization_name (body req)) as Hname.
    destruct (Validator.updateOrganizationValidation (body req)) as [valid b] eqn:Hval.
    cbn [snd] in Hname. destruct valid; cbn; [|exact Hinv].
    assert (Hne : forall n, get b "name" = Some n -> n <> EmptyString).
    { intros n Hn. rewrite Hname in Hn.
      unfold Validator.updateOrganizationValidation in Hval. injection Hval as Hv _.
      unfold Validator.optional_trimmed_nonempty in Hv.
      destruct (get (body req) "name") as [v|]; [|discriminate].
      cbn in Hn. injection Hn as <-. now apply nonempty_of_length_min. }
    unfold bind, user_bang.
    destruct (user req) as [u|]; cbn; [|exact Hinv].
    destruct (find _ (organizationUsers db)) as [caller|]; cbn; [|exact Hinv].
    destruct (OrganizationRoutes.owner_or_admin (ou_role caller)); cbn; [|exact Hinv].
    unfold Prisma.organization_update, command.
    destruct (find _ (organizations db)) as [found|] eqn:Hfound; cbn; [|exact Hinv].
    intros o Ho. cbn in Ho. apply in_map_iff in Ho as (x & Hx & Hin).
    destruct (String.eqb (org_id x) _); [|subst; auto].
    subst o. cbn. apply find_some in Hfound as [Hfin _].
    destruct (get b "name") as [n|] eqn:Hn; cbn.
    + destruct (negb (String.eqb n EmptyString)) eqn:Ht; cbn; [now apply Hne | auto].
    + auto.
Qed.

End OrganizationLifeCycle.

(** X17. [GET /organizations] lists the caller's memberships and nothing
    else: one entry per membership row of the caller, and every organization
    listed is one the caller has a membership row for, with the role of that
    row. *)
Theorem getOrganizations_lists_the_memberships req db u :
  user req = Some u ->
  exists resp,
    result (OrganizationRoutes.getOrganizations req db) = inr resp
    /\ length (data resp)
       = length (filter (Prisma.member_of (au_id u)) (organizationUsers db))
    /\ forall o role,
         In (Some o, role) (data resp) ->
         exists m, In m (organizationUsers db) /\ ou_userId m = au_id u
                   /\ ou_organizationId m = org_id o /\ ou_role m = role.
Proof.
  intros Hu. unfold OrganizationRoutes.getOrganizations, bind, user_bang.
  rewrite Hu. cbn. eexists. split; [reflexivity|]. cbn. split.
  - now rewrite !length_map.
  - intros o role Hin. rewrite map_map in Hin.
    apply in_map_iff in Hin as (m & Heq & Hm).
    apply filter_In in Hm as [Hm Hmem]. apply String.eqb_eq in Hmem.
    cbn in Heq. injection Heq as Ho Hrole.
    apply find_some in Ho as [_ Ho]. apply String.eqb_eq in Ho.
    exists m. auto.
Qed.

(** * Further properties of the user routes *)

(** X18. A profile update touches the profile and nothing else: it leaves
    the session and membership tables alone, keeps id, email, password hash,
    role, active flag and creation date of every user row, and keeps the
    rows of all other users whole. *)
Theorem updateProfile_changes_only_the_profile req db c :
  user req = Some c ->
  let db1 := db_after (UserRoutes.updateProfile req db) in
  userSessions db1 = userSessions db
  /\ organizationUsers db1 = organizationUsers db
  /\ map account_columns (users db1) = map account_columns (users db)
  /\ forall u, In u (users db) -> user_id u <> au_id c -> In u (users db1).
Proof.
  intros Hc. cbv zeta. unfold UserRoutes.updateProfile, bind, user_bang.
  rewrite Hc. cbn. unfold Prisma.user_update_profile, command.
  destruct (find _ (users db)) as [found|]; cbn.
  2: { repeat split; auto. }
  repeat split.
  - rewrite map_map. apply map_ext. intros u.
    destruct (Prisma.id_is (au_id c) u); reflexivity.
  - intros u Hin Hne. apply in_map_iff. exists u. split; [|assumption].
    unfold Prisma.id_is. destruct (String.eqb (user_id u) (au_id c)) eqn:E;
      [|reflexivity].
    apply String.eqb_eq in E. contradiction.
Qed.

Section AdminFacts.
Context {P : Platform}.

(** X19. The user listing is for administrators: a request that
    [authenticateToken] accepts for a user whose role is not ADMIN is refused
    with 403 by [requireRole], after the two store calls of the validator and
    before the handler reads the user table. *)
Theorem GET_users_requires_admin contains_insensitive req now db accepted ctx :
  result (Auth.authenticateToken req now db) = inr accepted ->
  user accepted = Some ctx ->
  au_role ctx <> ADMIN ->
  Routes.GET_users contains_insensitive req now db
  = mkOut (inl (CustomError "Insufficient permissions" 403)) db
          [(TUser, FindUnique); (TUserSession, FindFirst)].
Proof.
  intros Hacc Hctx Hrole.
  apply authenticateToken_accepted_inv in Hacc
    as (token & decoded & u & s & Hb & Ht & Hv & Hu & Ha & Hs & ->).
  unfold Routes.GET_users, Routes.protected_for, bind.
  rewrite (authenticateToken_accepts _ _ _ _ _ _ _ Hb Ht Hv Hu Ha Hs). cbn.
  cbn in Hctx. injection Hctx as <-. cbn in Hrole.
  destruct (user_role u); [reflexivity | contradiction].
Qed.

End AdminFacts.

(** * Further properties of the supplier, zone and alert routes *)

Lemma In_firstn {A} (n : nat) (l : list A) (x : A) : In x (firstn n l) -> In x l.
Proof.
  revert l. induction n as [|n IH]; intros [|y l]; cbn; try tauto.
  intros [-> | Hin]; auto.
Qed.

Lemma In_skipn {A} (n : nat) (l : list A) (x : A) : In x (skipn n l) -> In x l.
Proof.
  revert l. induction n as [|n IH]; intros [|y l]; cbn; try tauto.
  intros Hin. right. now apply IH.
Qed.







Section SupplierListing.
Context {P : Platform}.

#[local] Arguments supplier_page : simpl never.

(** What the supplier listing returns, with or without a membership. *)
Lemma getSuppliers_shape req db u resp :
  user req = Some u ->
  result (SupplierRoutes.getSuppliers req db) = inr resp ->
  (first_membership db (au_id u) = None
   /\ data resp = SupplierRoutes.mkSupplierPage []
                     (SupplierRoutes.mkPagination 1 10 0 (Some 0)))
  \/ exists m page limit o,
       first_membership db (au_id u) = Some m
       /\ SupplierRoutes.number_or (req_query req) "page" 1 = Some page
       /\ SupplierRoutes.number_or (req_query req) "limit" 10 = Some limit
       /\ Js.or_else (get (req_query req) "organizationId")
                     (Some (ou_organizationId m)) = Some o
       /\ data resp
          = SupplierRoutes.mkSupplierPage (supplier_page db o page limit)
              (SupplierRoutes.mkPagination page limit
                 (length (filter (Prisma.in_organization o) (suppliers db)))
                 (SupplierRoutes.ceil_div
                    (length (filter (Prisma.in_organization o) (suppliers db)))
                    limit)).
Proof.
  unfold first_membership, supplier_page. intros Hu.
  unfold SupplierRoutes.getSuppliers, bind, user_bang. rewrite Hu. cbn.
  destruct (find _ (organizationUsers db)) as [m|] eqn:Hm; cbn.
  2: { intros [= <-]. left. split; reflexivity. }
  destruct (SupplierRoutes.number_or (req_query req) "page" 1) as [page|];
    [|discriminate].
  destruct (SupplierRoutes.number_or (req_query req) "limit" 10) as [limit|];
    [|discriminate].
  assert (Hor : exists o, Js.or_else (get (req_query req) "organizationId")
                            (Some (ou_organizationId m)) = Some o).
  { unfold Js.or_else. destruct (Js.truthy _) eqn:Ht; [|eauto].
    destruct (get (req_query req) "organizationId"); [eauto | discriminate]. }
  destruct Hor as [o Hor]. rewrite Hor.
  destruct (Z.ltb _ 0); cbn; [discriminate|].
  intros [= <-]. right. exists m, page, limit, o. repeat split; auto.
Qed.

Lemma supplier_page_rows db o page limit :
  supplier_page db o page limit
  = firstn limit
      (skipn (Z.to_nat ((Z.of_nat page - 1) * Z.of_nat limit))
         (Prisma.order_by_desc supplier_createdAt
            (filter (Prisma.in_organization o) (suppliers db)))).
Proof. reflexivity. Qed.


(** X21. Without an [organizationId] in the query string the supplier
    listing is scoped to the caller: every row it returns belongs to an
    organization the caller has a membership row for. *)
Theorem getSuppliers_without_query_is_scoped req db u resp :
  user req = Some u ->
  Js.truthy (get (req_query req) "organizationId") = false ->
  result (SupplierRoutes.getSuppliers req db) = inr resp ->
  forall s, In s (SupplierRoutes.sp_suppliers (data resp)) ->
            is_member db (au_id u) (supplier_organizationId s).
Proof.
  intros Hu Hq Hok.
  destruct (getSuppliers_shape _ _ _ _ Hu Hok)
    as [[_ ->] | (m & page & limit & o & Hm & _ & _ & Hor & ->)]; cbn.
  - intros s [].
  - unfold Js.or_else in Hor. rewrite Hq in Hor. injection Hor as <-.
    intros s Hs. rewrite supplier_page_rows in Hs.
    apply In_firstn, In_skipn, In_order_by_desc, filter_In in Hs as [_ Ho].
    apply String.eqb_eq in Ho.
    apply find_some in Hm as [Hin Hmem]. apply String.eqb_eq in Hmem.
    exists m. auto.
Qed.

End SupplierListing.




(** * Alerts and zones *)

Lemma filter_none {A} (p : A -> bool) (l : list A) :
  (forall x, In x l -> p x = false) -> filter p l = [].
Proof.
  induction l as [|x l IH]; cbn; intros Hp; [reflexivity|].
  rewrite (Hp x) by now left. apply IH. intros y Hy. apply Hp. now right.
Qed.

Lemma set_alerts_same db : set_alerts db (alerts db) = db.
Proof. now destruct db. Qed.

(** X23. An alert that is not the caller's cannot be marked: when no alert
    row has the id of the path and the caller as owner, [markAlertRead]
    throws the plain error [Alert not found] (not a [CustomError] with a
    status) and the store is left exactly as it was. *)
Theorem markAlertRead_not_owned_changes_nothing req db u :
  user req = Some u ->
  (forall a, In a (alerts db) ->
             ~ (alert_id a = param req "alertId" /\ alert_userId a = au_id u)) ->
  AlertRoutes.markAlertRead req db
  = mkOut (inl (JsError "Alert not found")) db [(TAlert, UpdateMany)].
Proof.
  intros Hu Hnone.
  assert (Hno : forall a, In a (alerts db) ->
                  Prisma.alert_is (param req "alertId") (au_id u) a = false).
  { intros a Hin. unfold Prisma.alert_is.
    destruct (String.eqb (alert_id a) _) eqn:E1; [|reflexivity].
    destruct (String.eqb (alert_userId a) _) eqn:E2; [|reflexivity].
    apply String.eqb_eq in E1, E2. now destruct (Hnone a Hin). }
  unfold AlertRoutes.markAlertRead, bind, user_bang. rewrite Hu. cbn.
  assert (Hfilter : filter (Prisma.alert_is (param req "alertId") (au_id u)) (alerts db)
                    = []).
  { now apply filter_none. }
  rewrite Hfilter. cbn. rewrite map_unless by exact Hno.
  now rewrite set_alerts_same.
Qed.

(** X24. Marking an alert touches nothing else: every alert row that does
    not have both the id of the path and the caller as owner is in the store
    afterwards as it was, the number of alert rows is the same, and no row
    changes its id, owner, organization or title. *)
Theorem markAlertRead_touches_only_the_named_alert req db u :
  user req = Some u ->
  let db1 := db_after (AlertRoutes.markAlertRead req db) in
  (forall a, In a (alerts db) ->
             Prisma.alert_is (param req "alertId") (au_id u) a = false ->
             In a (alerts db1))
  /\ map (fun a => (alert_id a, alert_userId a, alert_organizationId a, alert_title a))
         (alerts db1)
     = map (fun a => (alert_id a, alert_userId a, alert_organizationId a, alert_title a))
           (alerts db)
  /\ users db1 = users db /\ suppliers db1 = suppliers db.
Proof.
  intros Hu. cbv zeta.
  assert (Hdb : db_after (AlertRoutes.markAlertRead req db)
                = set_alerts db
                    (map (fun a => if Prisma.alert_is (param req "alertId") (au_id u) a
                                   then Prisma.mark_read a else a) (alerts db))).
  { unfold AlertRoutes.markAlertRead, bind, user_bang. rewrite Hu. cbn.
    destruct (Nat.eqb _ 0); reflexivity. }
  rewrite Hdb. cbn. repeat split.
  - intros a Hin Hno. apply in_map_iff. exists a. now rewrite Hno.
  - rewrite map_map. apply map_ext. intros a.
    destruct (Prisma.alert_is _ _ a); reflexivity.
Qed.

(** * The further properties on concrete stores *)

Section MoreRuns.
Import Scenario.
#[local] Existing Instance Scenario.platform.

Ltac rows H :=
  cbn in H;
  repeat match type of H with
         | _ \/ _ => destruct H as [H | H]
         | False => destruct H
         end;
  subst.


(** Alice's context is backed by her user row and her membership. *)
Lemma authenticateToken_context_witness :
  (exists u, In u (users db0) /\ user_isActive u = true
             /\ user_id alice = user_id u /\ user_email alice = user_email u
             /\ USER = user_role u)
  /\ (forall o, Some org1 = Some o -> is_member db0 (user_id alice) o).
Proof.
  exact (authenticateToken_context_is_backed_by_store
           (bearer_request (token_of alice)) t0 db0
           (with_user (bearer_request (token_of alice))
              (mkAuthUser (user_id alice) (user_email alice) USER (Some org1)))
           (mkAuthUser (user_id alice) (user_email alice) USER (Some org1))
           eq_refl eq_refl).
Defined.

(** [Token <jwt>] is accepted as [Bearer <jwt>] is. *)
Lemma authenticateToken_scheme_witness :
  verdict (Auth.authenticateToken
             (mkRequest (Some ("Token" ++ " " ++ token_of alice)) [] [] [] None) t0 db0)
  = verdict (Auth.authenticateToken
               (mkRequest (Some ("Bearer " ++ token_of alice)) [] [] [] None) t0 db0).
Proof.
  exact (authenticateToken_ignores_scheme "Token" (token_of alice) [] [] [] t0 db0
           eq_refl).
Defined.

(** Alice asks for organization 1 in the path and organization 2 in the
    body: the path wins, and she is a member of it. *)
Lemma requireOrganizationAccess_witness :
  exists ctx o,
    Some (mkAuthUser (user_id alice) (user_email alice) USER (Some org1)) = Some ctx
    /\ au_organizationId ctx = Some o
    /\ is_member db0 (au_id ctx) o
    /\ (true = true -> Some org1 = Some o).
Proof.
  exact (requireOrganizationAccess_sets_a_membership
           (as_user alice None [("organizationId", org1)] []
                    [("organizationId", org2)])
           db0
           (with_user (as_user alice None [("organizationId", org1)] []
                               [("organizationId", org2)])
              (mkAuthUser (user_id alice) (user_email alice) USER (Some org1)))
           eq_refl).
Defined.

(** Frank registers and logs in. *)
Lemma register_then_login_witness :
  exists resp,
    result (AuthRoutes.login login_frank 3000%Z
              (db_after (AuthRoutes.register register_frank t0 db0)))
    = inr resp
    /\ status resp = 200
    /\ pu_email (AuthRoutes.cred_user (data resp)) = "frank@example.com".
Proof.
  edestruct register_then_login
    with (req := register_frank) (now := t0) (db := db0)
         (req' := login_frank) (now' := 3000%Z)
    as (resp & Hr & Hs & Hu); [vm_compute; reflexivity | reflexivity..|].
  exists resp. rewrite Hu. repeat split; assumption.
Defined.



(** Alice logs out; Bob's token is accepted as before. *)
Lemma logout_other_token_witness :
  result (Auth.authenticateToken (bearer_request (token_of bob)) t0
            (db_after (AuthRoutes.logout (bearer_request (token_of alice)) db0)))
  = result (Auth.authenticateToken (bearer_request (token_of bob)) t0 db0).
Proof.
  apply logout_leaves_other_tokens. vm_compute. discriminate.
Defined.

(** With tokens that carry their time of signing, Alice's refresh at time 2
    retires the token of time 1. *)
Lemma refresh_retires_witness :
  rejected (Auth.authenticateToken (P := stamping_platform)
              (bearer_request alice_stamped) 3%Z
              (db_after (AuthRoutes.refresh (P := stamping_platform)
                           (refresh_request alice_stamped) 2%Z db_stamped))) 401.
Proof.
  edestruct (@refresh_retires_the_old_token stamping_platform)
    with (req := refresh_request alice_stamped) (now := 2%Z)
         (db := db_stamped) (old := alice_stamped)
    as [_ Hold]; [vm_compute; reflexivity | reflexivity | vm_compute; discriminate |].
  exact (Hold (bearer_request alice_stamped) 3%Z eq_refl).
Defined.

(** With no session row left, Alice's refresh answers 200 and writes
    nothing. *)
Lemma refresh_without_session_witness :
  db_after (AuthRoutes.refresh (refresh_request (token_of alice)) t0 db_signed_out)
  = db_signed_out.
Proof.
  edestruct refresh_without_session_changes_nothing
    with (req := refresh_request (token_of alice)) (now := t0)
         (db := db_signed_out) (old := token_of alice)
    as [_ Hdb]; [vm_compute; reflexivity | reflexivity | intros s [] |].
  exact Hdb.
Defined.


(** Alice creates an organization and owns it. *)
Lemma createOrganization_witness :
  exists resp,
    result (OrganizationRoutes.createOrganization
              (as_user alice (Some org1) [] [] [("name", "  New Org ")]) db0)
    = inr resp
    /\ org_name (data resp) = "New Org"
    /\ membership_role
         (db_after (OrganizationRoutes.createOrganization
                      (as_user alice (Some org1) [] [] [("name", "  New Org ")]) db0))
         (user_id alice) (org_id (data resp)) OWNER.
Proof.
  eexists. split; [vm_compute; reflexivity|]. split; [reflexivity|].
  edestruct createOrganization_makes_the_creator_owner
    with (req := as_user alice (Some org1) [] [] [("name", "  New Org ")]) (db := db0)
         (u := mkAuthUser (user_id alice) (user_email alice) USER (Some org1))
    as [Hrole _]; [reflexivity | vm_compute; reflexivity | exact Hrole].
Defined.

(** Alice adds Dave to organization 1 as a viewer: the new row is a VIEWER
    row of organization 1. *)
Lemma addUser_grants_witness :
  In (mkOrganizationUser "u-dave" org1 VIEWER) (organizationUsers db0)
  \/ (org1 = param add_dave "organizationId" /\ (VIEWER = MEMBER \/ VIEWER = VIEWER)).
Proof.
  apply (addUser_grants_member_or_viewer_only add_dave db0
           (mkOrganizationUser "u-dave" org1 VIEWER)).
  vm_compute. auto 10.
Defined.

(** Alice adds Dave twice. *)
Lemma addUser_twice_witness :
  result (OrganizationRoutes.addUser add_dave
            (db_after (OrganizationRoutes.addUser add_dave db0)))
  = inl (CustomError "User already in organization" 409).
Proof.
  erewrite addUser_twice_conflicts; [reflexivity | vm_compute; reflexivity].
Defined.

(** No organization of the store has an empty name, before or after Alice
    renames hers. *)
Lemma organization_names_witness :
  names_nonblank
    (db_after (OrganizationRoutes.updateOrganization
                 (as_user alice (Some org1) [("organizationId", org1)] []
                          [("name", " Org One Ltd ")]) db0)).
Proof.
  refine (proj2 (organization_names_stay_nonblank
                   (as_user alice (Some org1) [("organizationId", org1)] []
                            [("name", " Org One Ltd ")]) db0 _)).
  intros o Hin. rows Hin; discriminate.
Defined.

(** Alice's organizations: one entry. *)
Lemma getOrganizations_witness :
  exists resp,
    result (OrganizationRoutes.getOrganizations (as_user alice (Some org1) [] [] []) db0)
    = inr resp
    /\ length (data resp) = 1.
Proof.
  destruct (getOrganizations_lists_the_memberships
              (as_user alice (Some org1) [] [] []) db0
              (mkAuthUser (user_id alice) (user_email alice) USER (Some org1))
              eq_refl) as (resp & Hr & Hlen & _).
  exists resp. split; [exact Hr | exact Hlen].
Defined.

(** Bob, a viewer of organization 2, may not rename it. *)
Lemma updateOrganization_forbidden_witness :
  OrganizationRoutes.updateOrganization
    (as_user bob (Some org2) [("organizationId", org2)] [] [("name", "Renamed")]) db0
  = mkOut (inl (CustomError "Insufficient permissions" 403)) db0
          [(TOrganizationUser, FindUnique)].
Proof.
  apply (updateOrganization_forbidden
           (as_user bob (Some org2) [("organizationId", org2)] [] [("name", "Renamed")])
           db0 (mkAuthUser (user_id bob) (user_email bob) USER (Some org2)));
    [reflexivity | reflexivity |].
  right. left. eexists. split; reflexivity.
Defined.

(** Erin, a member of organization 1, may not add Dave to it. *)
Lemma addUser_forbidden_witness :
  OrganizationRoutes.addUser
    (as_user erin (Some org1) [("organizationId", org1)] []
             [("email", "dave@example.com"); ("role", "VIEWER")]) db0
  = mkOut (inl (CustomError "Insufficient permissions" 403)) db0
          [(TOrganizationUser, FindUnique)].
Proof.
  apply (addUser_forbidden
           (as_user erin (Some org1) [("organizationId", org1)] []
                    [("email", "dave@example.com"); ("role", "VIEWER")])
           db0 (mkAuthUser (user_id erin) (user_email erin) USER (Some org1)));
    [reflexivity | reflexivity |].
  left. eexists. split; reflexivity.
Defined.


(** Alice changes her first name; Bob's row is as it was. *)
Lemma updateProfile_witness :
  In bob (users (db_after (UserRoutes.updateProfile
                             (as_user alice (Some org1) [] [] [("firstName", "Alicia")])
                             db0)))
  /\ map account_columns
         (users (db_after (UserRoutes.updateProfile
                             (as_user alice (Some org1) [] [] [("firstName", "Alicia")])
                             db0)))
     = map account_columns (users db0).
Proof.
  destruct (updateProfile_changes_only_the_profile
              (as_user alice (Some org1) [] [] [("firstName", "Alicia")]) db0
              (mkAuthUser (user_id alice) (user_email alice) USER (Some org1))
              eq_refl) as (_ & _ & Hcolumns & Hothers).
  split; [|exact Hcolumns].
  apply Hothers; [cbn; auto | discriminate].
Defined.

(** Bob is an ordinary user: the user listing is closed to him. *)
Lemma GET_users_witness :
  Routes.GET_users (fun _ _ => true) (bearer_request (token_of bob)) t0 db0
  = mkOut (inl (CustomError "Insufficient permissions" 403)) db0
          [(TUser, FindUnique); (TUserSession, FindFirst)].
Proof.
  apply (GET_users_requires_admin (fun _ _ => true) (bearer_request (token_of bob))
           t0 db0
           (with_user (bearer_request (token_of bob))
              (mkAuthUser (user_id bob) (user_email bob) USER (Some org2)))
           (mkAuthUser (user_id bob) (user_email bob) USER (Some org2)));
    [reflexivity | reflexivity | discriminate].
Defined.


(** Alice's listing without a query: suppliers of her organization only. *)
Lemma getSuppliers_scoped_witness :
  is_member db_suppliers (user_id alice) (supplier_organizationId sup3).
Proof.
  eapply getSuppliers_without_query_is_scoped
    with (req := list_suppliers []) (db := db_suppliers)
         (u := mkAuthUser (user_id alice) (user_email alice) USER (Some org1));
    [reflexivity | reflexivity | vm_compute; reflexivity | cbn; auto].
Defined.


(** Dave has no membership: the empty page. *)
Lemma getSuppliers_empty_witness :
  SupplierRoutes.getSuppliers
    (as_user dave None [] [("organizationId", org1)] []) db0
  = mkOut (inr (mkResponse 200 None
                  (SupplierRoutes.mkSupplierPage []
                     (SupplierRoutes.mkPagination 1 10 0 (Some 0)))))
          db0 [(TOrganizationUser, FindFirst)].
Proof.
  apply (getSuppliers_no_membership_empty
           (as_user dave None [] [("organizationId", org1)] []) db0
           (mkAuthUser (user_id dave) (user_email dave) USER None));
    reflexivity.
Defined.

(** Alice's zones: the zone of organization 1. *)
Lemma getZones_witness :
  exists m, In m (organizationUsers db_zones) /\ ou_userId m = user_id alice
            /\ ou_organizationId m = zone_organizationId zone1.
Proof.
  apply (getZones_scoped_by_membership (as_user alice (Some org1) [] [] []) db_zones
           (mkAuthUser (user_id alice) (user_email alice) USER (Some org1))
           (mkResponse 200 None [zone1]) eq_refl eq_refl zone1).
  cbn. auto.
Defined.

(** Bob tries to mark Alice's alert. *)
Lemma markAlertRead_not_owned_witness :
  AlertRoutes.markAlertRead (as_user bob (Some org2) [("alertId", "al-1")] [] []) db0
  = mkOut (inl (JsError "Alert not found")) db0 [(TAlert, UpdateMany)].
Proof.
  apply (markAlertRead_not_owned_changes_nothing
           (as_user bob (Some org2) [("alertId", "al-1")] [] []) db0
           (mkAuthUser (user_id bob) (user_email bob) USER (Some org2)));
    [reflexivity|].
  intros a Hin [_ Howner]. rows Hin. discriminate.
Defined.

(** Alice marks her alert: users and suppliers are as they were. *)
Lemma markAlertRead_frame_witness :
  users (db_after (AlertRoutes.markAlertRead
                     (as_user alice (Some org1) [("alertId", "al-1")] [] []) db0))
  = users db0.
Proof.
  exact (proj1 (proj2 (proj2 (markAlertRead_touches_only_the_named_alert
                                (as_user alice (Some org1) [("alertId", "al-1")] [] [])
                                db0
                                (mkAuthUser (user_id alice) (user_email alice) USER
                                            (Some org1))
                                eq_refl)))).
Defined.

End MoreRuns.
